(** * RPi-FanDriver: the fan control daemon of [fan_driver.py]

    A shallow embedding of [FanDriverDaemon] and of the properties its
    specification states about it.

    - Python floats are IEEE binary64 numbers: [spec_float] with
      [prec = 53] and [emax = 1024], and the operations of [SpecFloat].
    - Python compares an [int] with a [float] by their exact values, so
      comparisons go through the exact value of a number ([xnum]).
    - The configuration is the [dict] that [json.load] returns, merged over
      the defaults: a [gmap string json].
    - The daemon object is a record; its methods are computations in a state
      and exception monad; the calls to [RPi.GPIO], to the logger and to the
      sensor file are recorded in a trace, in the order they are made.
    - What the outside world answers (sensor file, configuration file,
      signals, success of a GPIO call) is an explicit input. *)

From Stdlib Require Import ZArith QArith Ascii String Floats.SpecFloat.
From stdpp Require Import base option list strings gmap.

Local Open Scope Z_scope.

(** * The program *)

(** ** Numbers *)

(** Binary64, the format of a Python [float]. *)
Definition prec : Z := 53.
Definition emax : Z := 1024.

Definition float_of_Z (n : Z) : spec_float := binary_normalize prec emax n 0 false.

Definition float_div (x y : spec_float) : spec_float := SFdiv prec emax x y.

(** The exact value of a number: Python's comparisons of [int] and [float]
    values are exact, also when the operands are of different types. *)
Inductive xnum : Type :=
| XNan
| XInf (neg : bool)
| XFin (q : Q).

Definition Q_of_finite (s : bool) (m : positive) (e : Z) : Q :=
  match e with
  | Zneg p => Qmake (cond_Zopp s (Zpos m)) (Pos.pow 2 p)
  | _ => Qmake (cond_Zopp s (Zpos m) * 2 ^ e) 1
  end.

Definition SF2X (f : spec_float) : xnum :=
  match f with
  | S754_zero _ => XFin (Qmake 0 1)
  | S754_infinity s => XInf s
  | S754_nan => XNan
  | S754_finite s m e => XFin (Q_of_finite s m e)
  end.

Definition xcompare (a b : xnum) : option comparison :=
  match a, b with
  | XNan, _ | _, XNan => None
  | XInf true, XInf true | XInf false, XInf false => Some Eq
  | XInf true, _ | _, XInf false => Some Lt
  | XInf false, _ | _, XInf true => Some Gt
  | XFin p, XFin q => Some (Qcompare p q)
  end.

Definition x_lt (a b : xnum) : bool :=
  match xcompare a b with Some Lt => true | _ => false end.

Definition x_gt (a b : xnum) : bool :=
  match xcompare a b with Some Gt => true | _ => false end.

(** ** JSON values, as [json.load] builds them *)

#[warnings="-register-all"]
Inductive json : Type :=
| JNull
| JBool (b : bool)
| JInt (n : Z)
| JFloat (f : spec_float)
| JString (s : string)
| JArray (l : list json)
| JObject (l : list (string * json)).

(** Python's truth value of a decoded JSON value ([not v] is its negation). *)
Definition truthy (v : json) : bool :=
  match v with
  | JNull => false
  | JBool b => b
  | JInt n => negb (n =? 0)%Z
  | JFloat f => match f with S754_zero _ => false | _ => true end
  | JString s => match s with EmptyString => false | _ => true end
  | JArray l => match l with [] => false | _ => true end
  | JObject l => match l with [] => false | _ => true end
  end.

(** The numeric value of a JSON value, for the values Python orders against a
    [float] ([bool] is a subclass of [int]); [None] where the comparison
    raises [TypeError]. *)
Definition json_num (v : json) : option xnum :=
  match v with
  | JBool b => Some (XFin (Qmake (if b then 1 else 0) 1))
  | JInt n => Some (XFin (Qmake n 1))
  | JFloat f => Some (SF2X f)
  | _ => None
  end.

(** ** Exceptions, effects and the outside world *)

Inductive exn : Type :=
| OSError          (* [open] of a file fails *)
| ValueError       (* [float] or [json.load] rejects the text *)
| TypeError        (* an ordering between a number and a non-number *)
| KeyError         (* a missing [dict] key *)
| OverflowError    (* a timeout too large for the lock *)
| AttributeError   (* the logging set-up fails *)
| RuntimeError.    (* [RPi.GPIO] reports an error *)

Inductive level : Type := LOW | HIGH.

Inductive log_level : Type := DEBUG | INFO | ERROR.

Abbreviation dict := (gmap string json).

Inductive log_msg : Type :=
| MsgLoaded                              (* 'Loaded config' *)
| MsgReloaded                            (* 'Reloaded config' *)
| MsgConfig (c : dict)                   (* 'Config: %s' *)
| MsgInited                              (* 'FanDriverDaemon inited' *)
| MsgTemp (t : spec_float)               (* 'Temp: %d°C' *)
| MsgChanged (pin : json) (state : bool) (* 'Changed pin#%d to %s' *)
| MsgStarting                            (* 'FanDriverDaemon.run: starting fan driver' *)
| MsgUnexpected (e : exn)                (* 'FanDriverDaemon.run: unexpected error ...' *)
| MsgShutdown.                           (* 'FanDriverDaemon.run: shutting down' *)

(** The calls the daemon makes to its collaborators, in the order made. *)
Inductive event : Type :=
| EvOpenConfig                                   (* open(config_file) *)
| EvOpenSensor                                   (* open(temp_file) *)
| EvGpioSetmode                                  (* GPIO.setmode(GPIO.BCM) *)
| EvGpioSetup (pin : json) (initial : level)     (* GPIO.setup(pin, GPIO.OUT, initial=...) *)
| EvGpioOutput (pin : json) (value : bool)       (* GPIO.output(pin, value) *)
| EvGpioCleanup                                  (* GPIO.cleanup() *)
| EvWaited (elapsed : Q)                         (* end_event.wait returned after that long *)
| EvLog (lvl : log_level) (msg : log_msg).

(** What [float(file.read())] gives on the sensor file. *)
Inductive sensor_reading : Type :=
| SensorUnreadable                  (* open raises OSError *)
| SensorUnparsable                  (* float raises ValueError *)
| SensorValue (f : spec_float).

(** What [json.load] gives on the configuration file. The file holds one JSON
    object (a record); other top-level documents are not modelled. *)
Inductive file_reading : Type :=
| FileUnreadable                    (* open raises OSError *)
| FileUndecodable                   (* json.load raises JSONDecodeError, a ValueError *)
| FileObject (data : dict).

Inductive signal : Type := SIGTERM | SIGINT | SIGHUP.

(** The answers of the outside world during one pass of the loop. The
    arrivals are the signals that arrive during the pass, in the order of
    their times, counted in seconds from the start of the wait. The handlers
    only set flags, so a signal that arrives earlier in the pass acts as one
    that arrives at time 0, and one that arrives once the wait is over acts
    as one that arrives as the wait returns, before the loop reads the
    reload flag. *)
Record world : Type := World {
  sensor : sensor_reading;
  output_ok : bool;                 (* GPIO.output succeeds *)
  arrivals : list (Q * signal);
  config_source : file_reading;     (* the configuration file, were it reloaded now *)
  setup_ok : bool                   (* GPIO.setup succeeds *)
}.

(** The answers of the outside world while the daemon object is built. *)
Record boot : Type := Boot {
  boot_config : file_reading;
  boot_logging : option exn;        (* the exception of the logging set-up, if any *)
  boot_setup_ok : bool
}.

(** ** The daemon object *)

Record daemon : Type := Daemon {
  config : dict;
  pin_state : bool;
  running : bool;
  end_event : bool;
  reload_event : bool;
  trace : list event
}.

Definition set_config (c : dict) (d : daemon) : daemon :=
  Daemon c (pin_state d) (running d) (end_event d) (reload_event d) (trace d).
Definition set_pin_state (b : bool) (d : daemon) : daemon :=
  Daemon (config d) b (running d) (end_event d) (reload_event d) (trace d).
Definition set_running (b : bool) (d : daemon) : daemon :=
  Daemon (config d) (pin_state d) b (end_event d) (reload_event d) (trace d).
Definition set_end_event (b : bool) (d : daemon) : daemon :=
  Daemon (config d) (pin_state d) (running d) b (reload_event d) (trace d).
Definition set_reload_event (b : bool) (d : daemon) : daemon :=
  Daemon (config d) (pin_state d) (running d) (end_event d) b (trace d).
Definition emit (ev : event) (d : daemon) : daemon :=
  Daemon (config d) (pin_state d) (running d) (end_event d) (reload_event d)
         (trace d ++ [ev]).

(** ** The monad of the methods: state of the object, exceptions, and a
    call that has not returned *)

Inductive result (A : Type) : Type :=
| Ok (a : A)
| Raise (e : exn)
| Pending.        (* no return within the observed answers of the world *)
Arguments Ok {A} a.
Arguments Raise {A} e.
Arguments Pending {A}.

Definition M (A : Type) : Type := daemon -> result A * daemon.

#[global] Instance M_ret : MRet M := fun A a d => (Ok a, d).
#[global] Instance M_bind : MBind M := fun A B f m d =>
  match m d with
  | (Ok a, d') => f a d'
  | (Raise e, d') => (Raise e, d')
  | (Pending, d') => (Pending, d')
  end.

Definition raise {A} (e : exn) : M A := fun d => (Raise e, d).
Definition get {A} (f : daemon -> A) : M A := fun d => (Ok (f d), d).
Definition modify (f : daemon -> daemon) : M unit := fun d => (Ok tt, f d).
Definition call (ev : event) : M unit := modify (emit ev).
Definition log (lvl : log_level) (msg : log_msg) : M unit := call (EvLog lvl msg).

(** [try: body / except BaseException: handler / finally: final]. *)
Definition try_except_finally (body : M unit) (handler : exn -> M unit)
    (final : M unit) : M unit := fun d =>
  match body d with
  | (Ok tt, d') => final d'
  | (Raise e, d') => (handler e ;; final) d'
  | (Pending, d') => (Pending, d')
  end.

(** [d[key]] *)
Definition getitem (c : dict) (key : string) : M json :=
  match c !! key with
  | Some v => mret v
  | None => raise KeyError
  end.

(** ** Configuration: [_load_config] *)

Definition log_format : list string :=
  [ "[PID: %(process)d]";
    "%(asctime)s";
    "[%(levelname)s]";
    "%(module)s:%(funcName)s:%(lineno)d";
    "%(message)s" ].

Definition default_config : dict :=
  <["log_level" := JString "INFO"]>
  (<["log_file" := JNull]>
  (<["log_format" := JNull]>
  (<["temp_max" := JInt 55]>
  (<["temp_min" := JInt 45]>
  (<["sleep" := JInt 1]>
  (<["control_pin" := JInt 21]> ∅)))))).

Definition _load_config (src : file_reading) : M dict :=
  call EvOpenConfig ;;
  match src with
  | FileUnreadable => raise OSError
  | FileUndecodable => raise ValueError
  | FileObject data =>
      (* config.update(data): the keys of data win *)
      let config := data ∪ default_config in
      fmt ← getitem config "log_format";
      if truthy fmt then mret config
      else mret (<["log_format" := JString (String.concat " " log_format)]> config)
  end.

(** ** Sensor: [_get_temp] *)

(** [value / 1000]: the sensor reports thousandths of a degree Celsius. *)
Definition celsius (value : spec_float) : spec_float :=
  float_div value (float_of_Z 1000).

Definition _get_temp (s : sensor_reading) : M spec_float :=
  call EvOpenSensor ;;
  match s with
  | SensorUnreadable => raise OSError
  | SensorUnparsable => raise ValueError
  | SensorValue f => mret (celsius f)
  end.

Definition digit_of_ascii (a : ascii) : option Z :=
  let n := Z.of_N (Ascii.N_of_ascii a) in
  if (48 <=? n)%Z && (n <=? 57)%Z then Some (n - 48) else None.

(** The value of a run of decimal digits, up to the end of the line. *)
Fixpoint digits_value (acc : Z) (s : string) : option Z :=
  match s with
  | EmptyString => Some acc
  | String "010"%char EmptyString => Some acc
  | String a rest =>
      match digit_of_ascii a with
      | Some k => digits_value (10 * acc + k) rest
      | None => None
      end
  end.

(** [float(text)] on the texts the kernel writes to the sensor file: an
    optional sign, decimal digits and the end of the line. [None] on any
    other text, where [float] may raise or may accept further spellings. *)
Definition float_of_text (s : string) : option spec_float :=
  match s with
  | EmptyString | String "010"%char _ => None
  | String "-"%char (String a rest) =>
      match digit_of_ascii a with
      | Some k =>
          match digits_value k rest with
          | Some n => Some (binary_normalize prec emax (- n) 0 true)
          | None => None
          end
      | None => None
      end
  | String a rest =>
      match digit_of_ascii a with
      | Some k => float_of_Z <$> digits_value k rest
      | None => None
      end
  end.

(** ** Pins: [_setup_pins], [_cleanup_pins] *)

(** [GPIO.HIGH if state else GPIO.LOW] *)
Definition level_of (state : bool) : level := if state then HIGH else LOW.

Definition _setup_pins (ok : bool) : M unit :=
  call EvGpioSetmode ;;
  ps ← get pin_state;
  let init_state := level_of ps in
  c ← get config;
  pin ← getitem c "control_pin";
  call (EvGpioSetup pin init_state) ;;
  if ok then mret tt else raise RuntimeError.

Definition _cleanup_pins : M unit := call EvGpioCleanup.

(** ** Reload: [_reload_config] *)

Definition _reload_config (src : file_reading) (ok : bool) : M unit :=
  c ← _load_config src;
  modify (set_config c) ;;
  log INFO MsgReloaded ;;
  log DEBUG (MsgConfig c) ;;
  _cleanup_pins ;;
  _setup_pins ok.

(** ** Signals *)

Definition __signal_stop_handler (d : daemon) : daemon :=
  set_end_event true (set_running false d).

Definition __signal_reload_handler (d : daemon) : daemon :=
  set_reload_event true d.

(** The registration of [__setup_signal_handlers]. *)
Definition handler (s : signal) : daemon -> daemon :=
  match s with
  | SIGTERM | SIGINT => __signal_stop_handler
  | SIGHUP => __signal_reload_handler
  end.

(** ** The wait: [threading.Event.wait] on [end_event] *)

Definition Qltb (p q : Q) : bool :=
  match Qcompare p q with Lt => true | _ => false end.

Definition in_time (t : Q) (limit : option Q) : bool :=
  match limit with
  | None => true
  | Some q => Qltb t q
  end.

(** The signals that arrive while the thread waits run their handlers; the
    wait is over at the first one that leaves [end_event] set. The result is
    the time of that wake-up, if there is one before the limit, and the
    signals that have not arrived by the end of the wait. *)
Fixpoint deliver (limit : option Q) (l : list (Q * signal)) (d : daemon)
    : option Q * list (Q * signal) * daemon :=
  match l with
  | [] => (None, [], d)
  | (t, s) :: rest =>
      if in_time t limit then
        let d' := handler s d in
        if end_event d' then (Some t, rest, d') else deliver limit rest d'
      else (None, l, d)
  end.

(** The handlers of the signals of the pass that arrive once the wait is
    over: they run as the call returns, before the loop reads the reload
    flag. *)
Fixpoint late (l : list (Q * signal)) (d : daemon) : daemon :=
  match l with
  | [] => d
  | (_, s) :: rest => late rest (handler s d)
  end.

(** [lock.acquire(True, timeout)] of CPython 3 on a 64-bit Linux raises
    [OverflowError] for a timeout whose count of nanoseconds does not fit a
    signed 64-bit integer: an [int] of more than 9223372036 seconds, which is
    [threading.TIMEOUT_MAX], or a [float] whose product with [1e9], as a
    float, reaches [2^63]. *)
Definition too_large (timeout : json) : bool :=
  match timeout with
  | JInt n => 9223372036 <? n
  | JFloat f =>
      match SF2X (SFmul prec emax f (float_of_Z 1000000000)) with
      | XFin ns => negb (Qltb ns (Qmake (2 ^ 63) 1))
      | XInf false => true
      | _ => false
      end
  | _ => false
  end.

(** [self.end_event.wait(timeout=timeout)]: returns at once when the flag is
    set; waits without limit for [None]; otherwise waits until the flag is
    set or the timeout has passed (at once for a timeout that is not
    positive). Its return value is not used by the daemon. No signal of the
    pass is lost: the handlers of those that do not arrive during the wait
    run after it. *)
Definition Event_wait (timeout : json) (l : list (Q * signal)) : M unit := fun d =>
  if end_event d then (Ok tt, late l (emit (EvWaited 0) d))
  else
    match timeout with
    | JNull =>
        match deliver None l d with
        | (Some t, rest, d') => (Ok tt, late rest (emit (EvWaited t) d'))
        | (None, _, d') => (Pending, d')
        end
    | _ =>
        match json_num timeout with
        | None => (Raise TypeError, late l d)
        | Some XNan | Some (XInf true) => (Ok tt, late l (emit (EvWaited 0) d))
        | Some (XInf false) => (Raise OverflowError, late l d)
        | Some (XFin q) =>
            if Qltb 0 q then
              if too_large timeout then (Raise OverflowError, late l d)
              else
                match deliver (Some q) l d with
                | (Some t, rest, d') => (Ok tt, late rest (emit (EvWaited t) d'))
                | (None, rest, d') => (Ok tt, late rest (emit (EvWaited q) d'))
                end
            else (Ok tt, late l (emit (EvWaited 0) d))
        end
    end.

(** ** The control step: [work] *)

(** [temp > v] and [temp < v] for a float [temp] and a configured value;
    [None] where Python raises [TypeError]. *)
Definition py_gt (temp : spec_float) (v : json) : option bool :=
  x_gt (SF2X temp) <$> json_num v.

Definition py_lt (temp : spec_float) (v : json) : option bool :=
  x_lt (SF2X temp) <$> json_num v.

Definition compared (o : option bool) : M bool :=
  match o with
  | Some b => mret b
  | None => raise TypeError
  end.

Definition GPIO_output (pin : json) (value : bool) (ok : bool) : M unit :=
  call (EvGpioOutput pin value) ;;
  if ok then mret tt else raise RuntimeError.

Definition work (w : world) : M unit :=
  c ← get config;
  pin ← getitem c "control_pin";
  temp ← _get_temp (sensor w);
  log DEBUG (MsgTemp temp) ;;
  c ← get config;
  temp_max ← getitem c "temp_max";
  above ← compared (py_gt temp temp_max);
  ps ← get pin_state;
  cond ← (if above && negb ps then mret true
          else
            c ← get config;
            temp_min ← getitem c "temp_min";
            below ← compared (py_lt temp temp_min);
            ps ← get pin_state;
            mret (below && ps));
  if cond : bool then
    ps ← get pin_state;
    modify (set_pin_state (negb ps)) ;;
    ps ← get pin_state;
    GPIO_output pin ps (output_ok w) ;;
    ps ← get pin_state;
    log INFO (MsgChanged pin ps)
  else mret tt.

(** ** The loop: [run] *)

(** [if self.reload_event.is_set(): ...], the last statement of a pass. *)
Definition reload_step (w : world) : M unit :=
  r ← get reload_event;
  if r : bool then
    _reload_config (config_source w) (setup_ok w) ;;
    modify (set_reload_event false)
  else mret tt.

(** One pass of the body of [while self.running]. *)
Definition iteration (w : world) : M unit :=
  work w ;;
  c ← get config;
  timeout ← getitem c "sleep";
  Event_wait timeout (arrivals w) ;;
  reload_step w.

(** [while self.running: ...], one answer of the world for each pass. *)
Fixpoint loop (ws : list world) : M unit := fun d =>
  if running d then
    match ws with
    | [] => (Pending, d)
    | w :: ws' => (iteration w ;; loop ws') d
    end
  else (Ok tt, d).

(** The [except BaseException] and [finally] blocks of [run]. *)
Definition on_error (e : exn) : M unit := log ERROR (MsgUnexpected e).

Definition on_exit : M unit := _cleanup_pins ;; log INFO MsgShutdown.

Definition run (ws : list world) : M unit :=
  log INFO MsgStarting ;;
  try_except_finally (modify (set_running true) ;; loop ws) on_error on_exit.

(** ** Construction and entry point *)

Definition __init__ (b : boot) : M unit :=
  c ← _load_config (boot_config b);
  modify (set_config c) ;;
  (match boot_logging b with Some e => raise e | None => mret tt end) ;;
  log INFO MsgLoaded ;;
  log DEBUG (MsgConfig c) ;;
  modify (set_end_event false) ;;
  modify (set_reload_event false) ;;
  modify (set_pin_state false) ;;
  _setup_pins (boot_setup_ok b) ;;
  log INFO MsgInited.

(** The state of the process before the object is built. *)
Definition blank : daemon := Daemon ∅ false false false false [].

(** How the process ends: its exit status, or no end within the observed
    answers of the world. *)
Inductive outcome : Type :=
| Exit (status : Z)
| Alive.

(** [driver = FanDriverDaemon(conf); driver.run()]: the interpreter exits with
    status 0 when the script runs to its end, with status 1 when an exception
    escapes. *)
Definition main (b : boot) (ws : list world) : outcome * daemon :=
  match (__init__ b ;; run ws) blank with
  | (Ok tt, d) => (Exit 0, d)
  | (Raise e, d) => (Exit 1, d)
  | (Pending, d) => (Alive, d)
  end.

(** * Observations *)

(** ** On a trace *)

(** The calls of [GPIO.output] in a trace. *)
Definition is_write (ev : event) : option (json * bool) :=
  match ev with EvGpioOutput p v => Some (p, v) | _ => None end.

Definition gpio_writes (tr : list event) : list (json * bool) := omap is_write tr.

(** The pins set up and not yet released after a trace: [GPIO.setup] claims
    a pin, [GPIO.cleanup] releases every pin the program has set up. *)
Definition gpio_step (claimed : list json) (ev : event) : list json :=
  match ev with
  | EvGpioSetup p _ => claimed ++ [p]
  | EvGpioCleanup => []
  | _ => claimed
  end.

Definition gpio_claimed (tr : list event) : list json := fold_left gpio_step tr [].

Definition is_error_log (ev : event) : bool :=
  match ev with EvLog ERROR _ => true | _ => false end.

(** ** On the configuration *)

(** [a < b] between two configured values. *)
Definition json_lt (a b : json) : bool :=
  match json_num a, json_num b with
  | Some x, Some y => x_lt x y
  | _, _ => false
  end.

(** The configuration [_load_config] returns for the record [data]. *)
Definition merged (data : dict) : dict :=
  let config := data ∪ default_config in
  match config !! "log_format" with
  | Some fmt =>
      if truthy fmt then config
      else <["log_format" := JString (String.concat " " log_format)]> config
  | None => config
  end.

(** ** On the control step and the loop *)

(** The test of [work] holds: [(temp > temp_max and not pin_state) or
    (temp < temp_min and pin_state)], both comparisons being defined. *)
Definition decision_differs (temp : spec_float) (temp_max temp_min : json)
    (ps : bool) : Prop :=
  exists above below,
    py_gt temp temp_max = Some above /\
    py_lt temp temp_min = Some below /\
    (above && negb ps) || (below && ps) = true.

(** [work] on each reading in turn: for each one, how the call ended and the
    calls of [GPIO.output] it made. *)
Fixpoint work_each (ws : list world) (d : daemon)
    : list (result unit * list (json * bool)) * daemon :=
  match ws with
  | [] => ([], d)
  | w :: ws' =>
      let '(r, d') := work w d in
      let made := gpio_writes (drop (length (trace d)) (trace d')) in
      let '(rest, d'') := work_each ws' d' in
      ((r, made) :: rest, d'')
  end.

(** The daemon as [run] enters its loop. *)
Definition started (d : daemon) : daemon :=
  set_running true (emit (EvLog INFO MsgStarting) d).

(** The state after the loop has made one full pass for each of the given
    answers of the world, if it makes them all. *)
Fixpoint passes (ws : list world) (d : daemon) : option daemon :=
  match ws with
  | [] => Some d
  | w :: ws' =>
      if running d then
        match iteration w d with
        | (Ok tt, d') => passes ws' d'
        | _ => None
        end
      else None
  end.

Definition is_stop (s : signal) : bool :=
  match s with SIGTERM | SIGINT => true | SIGHUP => false end.

(** ** On the temperature *)

(** The exact value of a float is the integer [k]. *)
Definition is_integer (f : spec_float) (k : Z) : bool :=
  match xcompare (SF2X f) (XFin (Qmake k 1)) with
  | Some Eq => true
  | _ => false
  end.

(** [|1000 * t - v| * 2^53 <= |v|] for the float [t = m * 2^(-p)] that
    [celsius] gives on the integer [v]: [t] is [v / 1000] up to the rounding
    of binary64. *)
Definition within_rounding (v : Z) : bool :=
  match celsius (float_of_Z v) with
  | S754_finite s m (Zneg p) =>
      let scale := Z.pow_pos 2 p in
      Z.abs (1000 * cond_Zopp s (Zpos m) - v * scale) * 2 ^ 53 <=? Z.abs v * scale
  | S754_zero _ => v =? 0
  | _ => false
  end.

(** [p] holds of the [n] integers from [v] on. *)
Fixpoint all_from (n : nat) (v : Z) (p : Z -> bool) : bool :=
  match n with
  | O => true
  | S n' => p v && all_from n' (v + 1) p
  end.

(** ** Sample states and answers of the world *)

(** A running daemon with the default configuration. *)
Definition at_defaults (engaged : bool) : daemon :=
  Daemon default_config engaged true false false [].

(** A start of the process at which the configuration file holds an empty
    record and every set-up succeeds. *)
Definition plain_boot : boot := Boot (FileObject ∅) None true.

(** A pass in which the sensor file holds an integer and nothing else
    happens. *)
Definition reading (millidegrees : Z) : world :=
  World (SensorValue (float_of_Z millidegrees)) true [] FileUnreadable true.

(** A pass in which the sensor file cannot be opened. *)
Definition unreadable : world :=
  World SensorUnreadable true [] FileUnreadable true.

(** A pass in which [GPIO.output] fails. *)
Definition failing_write (millidegrees : Z) : world :=
  World (SensorValue (float_of_Z millidegrees)) false [] FileUnreadable true.

(** A pass in which the configuration file holds the record [data]. *)
Definition reloading (millidegrees : Z) (data : dict) : world :=
  World (SensorValue (float_of_Z millidegrees)) true [] (FileObject data) true.

(** A pass in which SIGTERM arrives a quarter of a second into the wait. *)
Definition stopped (millidegrees : Z) : world :=
  World (SensorValue (float_of_Z millidegrees)) true [(Qmake 1 4, SIGTERM)]
        FileUnreadable true.

(** A pass in which SIGHUP arrives a quarter of a second into the wait and
    the configuration file holds an empty record. *)
Definition hangup (millidegrees : Z) : world :=
  World (SensorValue (float_of_Z millidegrees)) true [(Qmake 1 4, SIGHUP)]
        (FileObject ∅) true.

(** ** On an object that has been built *)

(** The keys of the default configuration. *)
Definition config_keys : list string :=
  ["log_level"; "log_file"; "log_format"; "temp_max"; "temp_min"; "sleep";
   "control_pin"].

(** Every default key has a value, and [log_format] a true one. *)
Definition complete (c : dict) : Prop :=
  (forall k, k ∈ config_keys -> is_Some (c !! k)) /\
  exists fmt, c !! "log_format" = Some fmt /\ truthy fmt = true.

(** The pin and level of the last [GPIO.setup] or [GPIO.output] since the
    last [GPIO.cleanup]. *)
Definition drive_step (st : option (json * bool)) (ev : event)
    : option (json * bool) :=
  match ev with
  | EvGpioSetup p HIGH => Some (p, true)
  | EvGpioSetup p LOW => Some (p, false)
  | EvGpioOutput p v => Some (p, v)
  | EvGpioCleanup => None
  | _ => st
  end.

Definition driven (tr : list event) : option (json * bool) :=
  fold_left drive_step tr None.

(** The stored state is the level last driven, on the configured pin. *)
Definition in_sync (d : daemon) : Prop :=
  exists pin,
    config d !! "control_pin" = Some pin /\
    driven (trace d) = Some (pin, pin_state d).

(** The state [_reload_config] leaves when it has read the record [data]. *)
Definition reloaded (data : dict) (d : daemon) : daemon :=
  emit (EvGpioSetup
          (match data !! "control_pin" with Some v => v | None => JInt 21 end)
          (if pin_state d then HIGH else LOW))
    (emit EvGpioSetmode
       (emit EvGpioCleanup
          (emit (EvLog DEBUG (MsgConfig (merged data)))
             (emit (EvLog INFO MsgReloaded)
                (set_config (merged data) (emit EvOpenConfig d)))))).

(** The state [__init__] leaves when it has read the record [data] and has
    set up the logging. *)
Definition built (data : dict) : daemon :=
  emit (EvGpioSetup
          (match data !! "control_pin" with Some v => v | None => JInt 21 end)
          LOW)
    (emit EvGpioSetmode
       (emit (EvLog DEBUG (MsgConfig (merged data)))
          (emit (EvLog INFO MsgLoaded)
             (set_config (merged data) (emit EvOpenConfig blank))))).

(** The handlers of a sequence of signals, run in the order of arrival. *)
Definition handle_all (l : list signal) (d : daemon) : daemon :=
  fold_left (fun d s => handler s d) l d.

(** The state [work] leaves when it has read the sensor and changes
    nothing, and the one it leaves when it flips the fan. *)
Definition idle (f : spec_float) (d : daemon) : daemon :=
  emit (EvLog DEBUG (MsgTemp (celsius f))) (emit EvOpenSensor d).

Definition flipped (pin : json) (f : spec_float) (d : daemon) : daemon :=
  emit (EvLog INFO (MsgChanged pin (negb (pin_state d))))
    (emit (EvGpioOutput pin (negb (pin_state d)))
       (set_pin_state (negb (pin_state d)) (idle f d))).

Definition is_gpio (ev : event) : bool :=
  match ev with
  | EvGpioSetmode | EvGpioSetup _ _ | EvGpioOutput _ _ | EvGpioCleanup => true
  | _ => false
  end.

(** The lengths of the waits in a trace. *)
Definition is_wait (ev : event) : option Q :=
  match ev with EvWaited t => Some t | _ => None end.

Definition waits (tr : list event) : list Q := omap is_wait tr.

(** The levels written by [GPIO.output] in a trace. *)
Definition is_level (ev : event) : option bool :=
  match ev with EvGpioOutput _ v => Some v | _ => None end.

Definition levels (tr : list event) : list bool := omap is_level tr.

(** Each level of the list is the opposite of the one before it, the first
    one the opposite of [b]. *)
Fixpoint alternates (b : bool) (l : list bool) : Prop :=
  match l with
  | [] => True
  | x :: l' => x = negb b /\ alternates x l'
  end.

(** Exactly the configured control pin is set up. *)
Definition one_claimed (d : daemon) : Prop :=
  exists pin,
    config d !! "control_pin" = Some pin /\ gpio_claimed (trace d) = [pin].

(** * Proofs *)

(** ** Tactics: running a method symbolically *)

Ltac run_M :=
  cbv beta iota delta
    [mbind mret M_bind M_ret raise get modify call log getitem compared
     try_except_finally GPIO_output _cleanup_pins on_error on_exit].

Tactic Notation "run_M" "in" hyp(H) :=
  cbv beta iota delta
    [mbind mret M_bind M_ret raise get modify call log getitem compared
     try_except_finally GPIO_output _cleanup_pins on_error on_exit] in H.

(** Reduce the reads of the fields of an updated state in [H]. *)
Ltac state_simpl H :=
  cbv beta iota in H;
  cbn [config pin_state running end_event reload_event trace emit set_config
       set_pin_state set_running set_end_event set_reload_event
       andb orb negb fst snd] in H.

(** The same on the goal. *)
Ltac state_step :=
  cbv beta iota;
  cbn [config pin_state running end_event reload_event trace emit set_config
       set_pin_state set_running set_end_event set_reload_event].

(** Case analysis on the next undecided test of the computation in [H]. *)
Ltac case_step H :=
  match type of H with
  | context [match ?x with _ => _ end] =>
      lazymatch x with
      | context [match _ with _ => _ end] => fail
      | _ => destruct x eqn:?; state_simpl H
      end
  end.

Ltac work_cases H :=
  unfold work, _get_temp in H; run_M in H; state_simpl H;
  repeat case_step H;
  injection H as ? ?; simplify_eq;
  cbn [config pin_state running end_event reload_event trace emit
       set_pin_state] in *.

Ltac bool_cases :=
  repeat match goal with
  | H : _ && _ = true |- _ => apply andb_prop in H as [? ?]
  | H : negb _ = true |- _ => apply negb_true_iff in H
  end.

(** ** Comparisons *)

Lemma x_lt_not_gt (a b : xnum) : x_lt a b = true -> x_gt a b = false.
Proof. unfold x_lt, x_gt. destruct (xcompare a b) as [[]|]; congruence. Qed.

Lemma x_gt_not_lt (a b : xnum) : x_gt a b = true -> x_lt a b = false.
Proof. unfold x_lt, x_gt. destruct (xcompare a b) as [[]|]; congruence. Qed.

Lemma py_lt_not_gt temp v : py_lt temp v = Some true -> py_gt temp v = Some false.
Proof.
  unfold py_lt, py_gt. destruct (json_num v) as [y|]; simpl; [|discriminate].
  intros [= H]. by rewrite (x_lt_not_gt _ _ H).
Qed.

Lemma py_gt_not_lt temp v : py_gt temp v = Some true -> py_lt temp v = Some false.
Proof.
  unfold py_lt, py_gt. destruct (json_num v) as [y|]; simpl; [|discriminate].
  intros [= H]. by rewrite (x_gt_not_lt _ _ H).
Qed.

(** ** The control step *)

Section Hysteresis.

(** One call of [work], from the state [d] to the state [d']. *)
Context (w : world) (d d' : daemon) (r : result unit).
Hypothesis Hwork : work w d = (r, d').

Lemma work_engages_only_above (temp_max : json) :
  config d !! "temp_max" = Some temp_max ->
  pin_state d = false -> pin_state d' = true ->
  exists f, sensor w = SensorValue f /\ py_gt (celsius f) temp_max = Some true.
Proof.
  intros Hmax Hoff Hon. pose proof Hwork as Hw.
  work_cases Hw; try congruence; bool_cases; simplify_eq; try congruence; eauto.
Qed.

Lemma work_disengages_only_below (temp_min : json) :
  config d !! "temp_min" = Some temp_min ->
  pin_state d = true -> pin_state d' = false ->
  exists f, sensor w = SensorValue f /\ py_lt (celsius f) temp_min = Some true.
Proof.
  intros Hmin Hon Hoff. pose proof Hwork as Hw.
  work_cases Hw; try congruence; bool_cases; simplify_eq; try congruence; eauto.
Qed.

Lemma work_dead_band (temp_min temp_max : json) (f : spec_float) :
  config d !! "temp_min" = Some temp_min ->
  config d !! "temp_max" = Some temp_max ->
  sensor w = SensorValue f ->
  py_gt (celsius f) temp_min = Some true ->
  py_lt (celsius f) temp_max = Some true ->
  pin_state d' = pin_state d /\
  exists evs, trace d' = trace d ++ evs /\ gpio_writes evs = [].
Proof.
  intros Hmin Hmax Hs Hgt Hlt. pose proof Hwork as Hw.
  pose proof (py_gt_not_lt _ _ Hgt) as Hnlt.
  pose proof (py_lt_not_gt _ _ Hlt) as Hngt.
  work_cases Hw; try congruence.
  all: split; [done|].
  all: eexists; split;
    [rewrite <- ?app_assoc; first [reflexivity | symmetry; apply app_nil_r]|done].
Qed.

(** C1. One pass of [work] engages the fan only on a temperature above
    [temp_max], disengages it only on a temperature below [temp_min], and on
    a temperature strictly between the two leaves the state as it is and
    makes no call of [GPIO.output], whichever the state. *)
Theorem work_hysteresis (temp_min temp_max : json) :
  config d !! "temp_min" = Some temp_min ->
  config d !! "temp_max" = Some temp_max ->
  json_lt temp_min temp_max = true ->
  (pin_state d = false -> pin_state d' = true ->
     exists f, sensor w = SensorValue f /\ py_gt (celsius f) temp_max = Some true) /\
  (pin_state d = true -> pin_state d' = false ->
     exists f, sensor w = SensorValue f /\ py_lt (celsius f) temp_min = Some true) /\
  (forall f, sensor w = SensorValue f ->
     py_gt (celsius f) temp_min = Some true ->
     py_lt (celsius f) temp_max = Some true ->
     pin_state d' = pin_state d /\
     exists evs, trace d' = trace d ++ evs /\ gpio_writes evs = []).
Proof.
  intros Hmin Hmax _. split; [|split].
  - eauto using work_engages_only_above.
  - eauto using work_disengages_only_below.
  - eauto using work_dead_band.
Qed.

End Hysteresis.

Lemma work_hysteresis_witness :
  json_lt (JInt 45) (JInt 55) = true /\
  pin_state (work (reading 50000) (at_defaults true)).2 = true /\
  exists evs,
    trace (work (reading 50000) (at_defaults true)).2 =
      trace (at_defaults true) ++ evs /\
    gpio_writes evs = [].
Proof.
  split; [reflexivity|].
  destruct (work_hysteresis (reading 50000) (at_defaults true)
              (work (reading 50000) (at_defaults true)).2
              (work (reading 50000) (at_defaults true)).1
              (surjective_pairing _) (JInt 45) (JInt 55))
    as (_ & _ & H); [reflexivity | reflexivity | reflexivity |].
  apply (H (float_of_Z 50000));
    [reflexivity | vm_compute; reflexivity | vm_compute; reflexivity].
Defined.

(** ** Configuration *)

Lemma default_log_format : default_config !! "log_format" = Some JNull.
Proof. reflexivity. Qed.

Lemma union_default_lookup (data : dict) (k : string) :
  (data ∪ default_config) !! k =
  match data !! k with Some v => Some v | None => default_config !! k end.
Proof.
  rewrite lookup_union. destruct (data !! k), (default_config !! k); reflexivity.
Qed.

Lemma load_config_object (data : dict) (d : daemon) :
  _load_config (FileObject data) d = (Ok (merged data), emit EvOpenConfig d).
Proof.
  unfold _load_config, merged. run_M.
  rewrite union_default_lookup, default_log_format.
  destruct (data !! "log_format") as [fmt|]; [destruct (truthy fmt)|]; reflexivity.
Qed.

Lemma merged_lookup (data : dict) (k : string) :
  k ≠ "log_format" ->
  merged data !! k =
  match data !! k with Some v => Some v | None => default_config !! k end.
Proof.
  intros Hk. unfold merged.
  rewrite (union_default_lookup data "log_format"), default_log_format.
  destruct (data !! "log_format") as [fmt|]; [destruct (truthy fmt)|];
    cbn [truthy]; rewrite ?lookup_insert_ne by congruence;
    apply union_default_lookup.
Qed.

Lemma merged_log_format (data : dict) :
  merged data !! "log_format" =
  match data !! "log_format" with
  | Some v => if truthy v then Some v else Some (JString (String.concat " " log_format))
  | None => Some (JString (String.concat " " log_format))
  end.
Proof.
  unfold merged.
  rewrite (union_default_lookup data "log_format"), default_log_format.
  destruct (data !! "log_format") as [fmt|] eqn:Hfmt; [destruct (truthy fmt)|];
    cbn [truthy]; rewrite ?lookup_insert_eq; try reflexivity.
  by rewrite union_default_lookup, Hfmt.
Qed.

(** C9, as the code has it. [_load_config] merges the record over the
    defaults field by field: a field the record lacks takes its default
    (temp_max 55, temp_min 45, sleep 1, control_pin 21, log_level 'INFO',
    log_file None), a field the record has overrides it; [log_format] alone
    overrides only with a true value, and is the built-in format otherwise. *)
Theorem load_config_merges_over_defaults (data : dict) (d : daemon) :
  exists c,
    _load_config (FileObject data) d = (Ok c, emit EvOpenConfig d) /\
    (forall k, k ≠ "log_format" ->
       c !! k = match data !! k with Some v => Some v | None => default_config !! k end) /\
    c !! "log_format" =
      match data !! "log_format" with
      | Some v =>
          if truthy v then Some v
          else Some (JString "[PID: %(process)d] %(asctime)s [%(levelname)s] %(module)s:%(funcName)s:%(lineno)d %(message)s")
      | None =>
          Some (JString "[PID: %(process)d] %(asctime)s [%(levelname)s] %(module)s:%(funcName)s:%(lineno)d %(message)s")
      end /\
    default_config !! "temp_max" = Some (JInt 55) /\
    default_config !! "temp_min" = Some (JInt 45) /\
    default_config !! "sleep" = Some (JInt 1) /\
    default_config !! "control_pin" = Some (JInt 21) /\
    default_config !! "log_level" = Some (JString "INFO") /\
    default_config !! "log_file" = Some JNull /\
    (forall k, k ∉ ["temp_max"; "temp_min"; "sleep"; "control_pin"; "log_level";
                    "log_file"; "log_format"] -> default_config !! k = None).
Proof.
  exists (merged data). split; [apply load_config_object|].
  split; [apply merged_lookup|]. split; [apply merged_log_format|].
  repeat (split; [reflexivity|]).
  intros k Hk. unfold default_config.
  repeat (rewrite lookup_insert_ne; [|intros <-; apply Hk; set_solver]).
  apply lookup_empty.
Qed.

(** C9, as stated, fails on a record whose [log_format] is the empty string:
    the field is present, and the configuration holds the built-in format. *)
Lemma load_config_empty_log_format_replaced :
  let data : dict := {[ "log_format" := JString "" ]} in
  data !! "log_format" = Some (JString "") /\
  exists c d',
    _load_config (FileObject data) blank = (Ok c, d') /\
    c !! "log_format" =
      Some (JString "[PID: %(process)d] %(asctime)s [%(levelname)s] %(module)s:%(funcName)s:%(lineno)d %(message)s") /\
    c !! "log_format" <> data !! "log_format".
Proof.
  intros data. split; [reflexivity|].
  exists (merged data), (emit EvOpenConfig blank).
  split; [apply load_config_object|].
  rewrite merged_log_format. split; [reflexivity|]. discriminate.
Qed.

(** ** Scenario A *)

(** C5. With temp_min 45 and temp_max 55 and the fan disengaged, the readings
    50, 56, 50, 44, 50 make exactly two calls of [GPIO.output], at index 1
    (engaging) and at index 3 (disengaging), and leave the fan disengaged. *)
Theorem scenario_A :
  default_config !! "temp_min" = Some (JInt 45) /\
  default_config !! "temp_max" = Some (JInt 55) /\
  Forall2 (fun m t => is_integer (celsius (float_of_Z m)) t = true)
    [50000; 56000; 50000; 44000; 50000] [50; 56; 50; 44; 50] /\
  pin_state (at_defaults false) = false /\
  exists d,
    work_each (map reading [50000; 56000; 50000; 44000; 50000]) (at_defaults false) =
      ([ (Ok tt, []);
         (Ok tt, [(JInt 21, true)]);
         (Ok tt, []);
         (Ok tt, [(JInt 21, false)]);
         (Ok tt, []) ], d) /\
    pin_state d = false /\
    gpio_writes (trace d) = [(JInt 21, true); (JInt 21, false)].
Proof.
  split; [reflexivity|]. split; [reflexivity|].
  split; [repeat constructor|]. split; [reflexivity|].
  eexists. split; [vm_compute; reflexivity|]. split; reflexivity.
Qed.

(** ** The sensor *)

Lemma all_from_spec (p : Z -> bool) (n : nat) (v k : Z) :
  all_from n v p = true -> v <= k < v + Z.of_nat n -> p k = true.
Proof.
  revert v. induction n as [|n IH]; intros v Hall Hk; [lia|].
  cbn [all_from] in Hall. apply andb_prop in Hall as [Hv Hrest].
  destruct (Z.eq_dec k v) as [->|Hne]; [exact Hv|].
  apply (IH (v + 1)); [exact Hrest|lia].
Qed.

Lemma all_from_range (p : Z -> bool) (lo len k : Z) :
  all_from (Z.to_nat len) lo p = true -> lo <= k < lo + len -> p k = true.
Proof.
  intros Hall Hk. apply (all_from_spec p (Z.to_nat len) lo); [exact Hall|].
  rewrite Z2Nat.id; lia.
Qed.

Lemma whole_degrees_exact (k : Z) :
  -273 <= k <= 1000 -> is_integer (celsius (float_of_Z (1000 * k))) k = true.
Proof.
  intros Hk.
  apply (all_from_range (fun k => is_integer (celsius (float_of_Z (1000 * k))) k)
           (-273) 1274); [vm_compute; reflexivity|lia].
Qed.

Lemma readings_within_rounding (v : Z) :
  44000 <= v <= 56000 -> within_rounding v = true.
Proof.
  intros Hv.
  apply (all_from_range within_rounding 44000 12001); [vm_compute; reflexivity|lia].
Qed.

(** C10. [_get_temp] returns the content of the sensor file, as a float,
    divided by the float 1000; on the text '55000' that is 55.0, which is
    not above the default temp_max 55, so the fan is not engaged. Whole
    degrees are exact, and the integer readings from 44 to 56 degrees, one
    degree around the default thresholds, are [v / 1000] up to the rounding
    of the division. *)
Theorem get_temp_divides_by_1000 (v : Z) :
  44000 <= v <= 56000 ->
  (forall f d,
     _get_temp (SensorValue f) d =
       (Ok (float_div f (float_of_Z 1000)), emit EvOpenSensor d)) /\
  is_integer (float_of_Z 1000) 1000 = true /\
  float_of_text "55000" = Some (float_of_Z 55000) /\
  float_of_text (String.append "55000" (String "010"%char EmptyString)) =
    Some (float_of_Z 55000) /\
  (forall d,
     _get_temp (SensorValue (float_of_Z 55000)) d =
       (Ok (float_of_Z 55), emit EvOpenSensor d)) /\
  is_integer (float_of_Z 55) 55 = true /\
  default_config !! "temp_max" = Some (JInt 55) /\
  py_gt (float_of_Z 55) (JInt 55) = Some false /\
  (exists d', work (reading 55000) (at_defaults false) = (Ok tt, d') /\
              pin_state d' = false /\ gpio_writes (trace d') = []) /\
  within_rounding v = true /\
  (v mod 1000 = 0 -> is_integer (celsius (float_of_Z v)) (v / 1000) = true).
Proof.
  intros Hv.
  split; [reflexivity|]. split; [reflexivity|]. split; [reflexivity|].
  split; [reflexivity|]. split; [reflexivity|]. split; [reflexivity|].
  split; [reflexivity|]. split; [reflexivity|].
  split; [eexists; split; [vm_compute; reflexivity|split; reflexivity]|].
  split; [by apply readings_within_rounding|].
  intros Hmod.
  rewrite (Z.div_mod v 1000) at 1 by lia. rewrite Hmod, Z.add_0_r.
  apply whole_degrees_exact.
  assert (v / 1000 <= 56) by (apply Z.div_le_upper_bound; lia).
  assert (44 <= v / 1000) by (apply Z.div_le_lower_bound; lia). lia.
Qed.

Lemma get_temp_divides_by_1000_witness :
  44000 <= 45001 <= 56000 /\ within_rounding 45001 = true.
Proof.
  split; [lia|]. apply (get_temp_divides_by_1000 45001). lia.
Defined.

(** ** The loop *)

Lemma loop_cons (w : world) (ws : list world) (d : daemon) :
  running d = true ->
  loop (w :: ws) d =
    match iteration w d with
    | (Ok tt, d') => loop ws d'
    | (Raise e, d') => (Raise e, d')
    | (Pending, d') => (Pending, d')
    end.
Proof.
  intros Hrun. cbn [loop]. rewrite Hrun. run_M.
  destruct (iteration w d) as [[[]| |] d']; reflexivity.
Qed.

Lemma loop_app (pre ws : list world) (d d' : daemon) :
  passes pre d = Some d' -> loop (pre ++ ws) d = loop ws d'.
Proof.
  revert d. induction pre as [|w pre IH]; intros d Hp.
  - by injection Hp as ->.
  - cbn [passes] in Hp. destruct (running d) eqn:Hrun; [|discriminate].
    cbn [app]. rewrite loop_cons by done.
    destruct (iteration w d) as [[[]| |] d1]; try discriminate. by apply IH.
Qed.

Lemma run_unfold (ws : list world) (d : daemon) :
  run ws d =
    match loop ws (started d) with
    | (Ok tt, d') => (Ok tt, emit (EvLog INFO MsgShutdown) (emit EvGpioCleanup d'))
    | (Raise e, d') =>
        (Ok tt, emit (EvLog INFO MsgShutdown)
                  (emit EvGpioCleanup (emit (EvLog ERROR (MsgUnexpected e)) d')))
    | (Pending, d') => (Pending, d')
    end.
Proof.
  unfold run, started. run_M.
  destruct (loop ws _) as [[[]| |] d']; reflexivity.
Qed.

Lemma iteration_work_raises (w : world) (d d' : daemon) (e : exn) :
  work w d = (Raise e, d') -> iteration w d = (Raise e, d').
Proof. intros Hw. unfold iteration. run_M. by rewrite Hw. Qed.

(** [run] never lets an exception escape. *)
Lemma run_no_raise (ws : list world) (d d' : daemon) (e : exn) :
  run ws d <> (Raise e, d').
Proof.
  rewrite run_unfold. destruct (loop ws _) as [[[]| |] d1]; discriminate.
Qed.

(** ** Failures inside a pass *)

Lemma work_sensor_failure (w : world) (d : daemon) (pin : json) :
  config d !! "control_pin" = Some pin ->
  sensor w = SensorUnreadable \/ sensor w = SensorUnparsable ->
  exists e, work w d = (Raise e, emit EvOpenSensor d).
Proof.
  intros Hpin Hs. unfold work, _get_temp. run_M. rewrite Hpin.
  destruct Hs as [-> | ->]; eauto.
Qed.

Lemma run_pass_raises (pre post : list world) (w : world) (d0 d d1 : daemon)
    (e : exn) :
  passes pre (started d0) = Some d ->
  running d = true ->
  work w d = (Raise e, d1) ->
  run (pre ++ w :: post) d0 =
    (Ok tt, emit (EvLog INFO MsgShutdown)
              (emit EvGpioCleanup (emit (EvLog ERROR (MsgUnexpected e)) d1))).
Proof.
  intros Hpre Hrun Hw.
  rewrite run_unfold, (loop_app _ _ _ _ Hpre), loop_cons by done.
  by rewrite (iteration_work_raises _ _ _ _ Hw).
Qed.

(** C8. When the read of the temperature fails in a pass of the loop, the
    loop ends: after the failed read the error is logged, the pins are
    released once, the shutdown is logged, and [run] returns; whatever the
    world would have answered later is not asked for, so no further read
    is made. *)
Theorem sensor_failure_stops_loop (pre : list world) (w : world)
    (d0 d : daemon) (pin : json) :
  passes pre (started d0) = Some d ->
  running d = true ->
  config d !! "control_pin" = Some pin ->
  sensor w = SensorUnreadable \/ sensor w = SensorUnparsable ->
  exists e d',
    (forall post, run (pre ++ w :: post) d0 = (Ok tt, d')) /\
    trace d' =
      trace d ++ [EvOpenSensor; EvLog ERROR (MsgUnexpected e);
                  EvGpioCleanup; EvLog INFO MsgShutdown] /\
    pin_state d' = pin_state d.
Proof.
  intros Hpre Hrun Hpin Hs.
  destruct (work_sensor_failure w d pin Hpin Hs) as [e Hw].
  exists e. eexists. split.
  - intros post. apply (run_pass_raises pre post w d0 d _ e Hpre Hrun Hw).
  - split; [|reflexivity]. cbn [trace emit]. by rewrite <- !app_assoc.
Qed.

Lemma sensor_failure_stops_loop_witness :
  exists e d',
    (forall post,
       run ([reading 56000] ++ unreadable :: post) (at_defaults false) = (Ok tt, d')) /\
    (exists tr, trace d' = tr ++ [EvOpenSensor; EvLog ERROR (MsgUnexpected e);
                                  EvGpioCleanup; EvLog INFO MsgShutdown]) /\
    pin_state d' = true.
Proof.
  destruct (sensor_failure_stops_loop [reading 56000] unreadable
              (at_defaults false)
              (match passes [reading 56000] (started (at_defaults false)) with
               | Some d => d
               | None => blank
               end) (JInt 21))
    as (e & d' & Hrun & Htr & Hps).
  - vm_compute. reflexivity.
  - reflexivity.
  - reflexivity.
  - left. reflexivity.
  - exists e, d'. split; [exact Hrun|]. split; [eauto|]. rewrite Hps. reflexivity.
Defined.

(** C3, as the code has it. When the test of [work] holds, the stored state
    is flipped first and [GPIO.output] is then called with the new state.
    When the call succeeds the change is logged; when it fails the stored
    state keeps its new value, the error is logged, the pins are released
    and [run] returns. *)
Theorem write_follows_state_update (pre post : list world) (w : world)
    (d0 d : daemon) (pin temp_max temp_min : json) (f : spec_float) :
  passes pre (started d0) = Some d ->
  running d = true ->
  config d !! "control_pin" = Some pin ->
  config d !! "temp_max" = Some temp_max ->
  config d !! "temp_min" = Some temp_min ->
  sensor w = SensorValue f ->
  decision_differs (celsius f) temp_max temp_min (pin_state d) ->
  let flipped :=
    emit (EvGpioOutput pin (negb (pin_state d)))
      (set_pin_state (negb (pin_state d))
         (emit (EvLog DEBUG (MsgTemp (celsius f))) (emit EvOpenSensor d))) in
  pin_state flipped = negb (pin_state d) /\
  (output_ok w = true ->
     work w d =
       (Ok tt, emit (EvLog INFO (MsgChanged pin (negb (pin_state d)))) flipped)) /\
  (output_ok w = false ->
     work w d = (Raise RuntimeError, flipped) /\
     run (pre ++ w :: post) d0 =
       (Ok tt, emit (EvLog INFO MsgShutdown)
                 (emit EvGpioCleanup
                    (emit (EvLog ERROR (MsgUnexpected RuntimeError)) flipped)))).
Proof.
  intros Hpre Hrun Hpin Hmax Hmin Hs (above & below & Hgt & Hlt & Hdec) flipped.
  assert (Hw : work w d =
            if output_ok w
            then (Ok tt, emit (EvLog INFO (MsgChanged pin (negb (pin_state d)))) flipped)
            else (Raise RuntimeError, flipped)).
  { subst flipped. unfold work, _get_temp. run_M. rewrite Hpin, Hs. state_step.
    rewrite Hmax, Hgt. state_step.
    destruct (above && negb (pin_state d)) eqn:Hfirst.
    - destruct (output_ok w); reflexivity.
    - cbn [orb] in Hdec. state_step. rewrite Hmin, Hlt. state_step.
      rewrite Hdec. destruct (output_ok w); reflexivity. }
  split; [reflexivity|]. split.
  - intros Hok. by rewrite Hw, Hok.
  - intros Hok. rewrite Hok in Hw. split; [exact Hw|].
    apply (run_pass_raises pre post w d0 d flipped RuntimeError Hpre Hrun Hw).
Qed.

Lemma write_follows_state_update_witness :
  exists d1,
    work (failing_write 56000) (started (at_defaults false)) = (Raise RuntimeError, d1) /\
    pin_state d1 = true /\
    run ([] ++ failing_write 56000 :: [reading 56000]) (at_defaults false) =
      (Ok tt, emit (EvLog INFO MsgShutdown)
                (emit EvGpioCleanup
                   (emit (EvLog ERROR (MsgUnexpected RuntimeError)) d1))).
Proof.
  destruct (write_follows_state_update [] [reading 56000] (failing_write 56000)
              (at_defaults false) (started (at_defaults false))
              (JInt 21) (JInt 55) (JInt 45) (float_of_Z 56000))
    as (Hps & _ & Hfail);
    [reflexivity | reflexivity | reflexivity | reflexivity | reflexivity
    | reflexivity | exists true, false; repeat split; vm_compute; reflexivity |].
  destruct (Hfail eq_refl) as [Hw Hr].
  eexists. split; [exact Hw|]. split; [exact Hps|exact Hr].
Defined.

(** C3, as stated, fails: a reading of 56 degrees with the fan disengaged
    and a failing [GPIO.output] leaves the stored state engaged. *)
Lemma failed_write_leaves_state_changed :
  pin_state (at_defaults false) = false /\
  exists d',
    work (failing_write 56000) (at_defaults false) = (Raise RuntimeError, d') /\
    pin_state d' = true /\
    gpio_writes (trace d') = [(JInt 21, true)].
Proof.
  split; [reflexivity|]. eexists. split; [vm_compute; reflexivity|].
  split; reflexivity.
Qed.

(** ** Reload *)

Lemma merged_control_pin (data : dict) :
  merged data !! "control_pin" =
    Some (match data !! "control_pin" with Some v => v | None => JInt 21 end).
Proof.
  rewrite merged_lookup by done. by destruct (data !! "control_pin").
Qed.

Lemma load_config_result (src : file_reading) (d : daemon) :
  _load_config src d =
    match src with
    | FileUnreadable => (Raise OSError, emit EvOpenConfig d)
    | FileUndecodable => (Raise ValueError, emit EvOpenConfig d)
    | FileObject data => (Ok (merged data), emit EvOpenConfig d)
    end.
Proof. destruct src; [reflexivity | reflexivity | apply load_config_object]. Qed.

Lemma reload_config_result (src : file_reading) (ok : bool) (d : daemon) :
  _reload_config src ok d =
    match src with
    | FileUnreadable => (Raise OSError, emit EvOpenConfig d)
    | FileUndecodable => (Raise ValueError, emit EvOpenConfig d)
    | FileObject data =>
        (if ok then Ok tt else Raise RuntimeError, reloaded data d)
    end.
Proof.
  unfold _reload_config. unfold mbind at 1, M_bind at 1.
  rewrite load_config_result. destruct src as [| |data]; [reflexivity..|].
  unfold _setup_pins, reloaded. run_M. state_step.
  rewrite merged_control_pin. by destruct ok.
Qed.

Lemma reload_step_result (w : world) (d : daemon) :
  reload_step w d =
    if reload_event d then
      match config_source w with
      | FileUnreadable => (Raise OSError, emit EvOpenConfig d)
      | FileUndecodable => (Raise ValueError, emit EvOpenConfig d)
      | FileObject data =>
          if setup_ok w then (Ok tt, set_reload_event false (reloaded data d))
          else (Raise RuntimeError, reloaded data d)
      end
    else (Ok tt, d).
Proof.
  unfold reload_step. unfold mbind at 1, M_bind at 1, get at 1.
  destruct (reload_event d); [|reflexivity].
  unfold mbind, M_bind. rewrite reload_config_result.
  destruct (config_source w); [reflexivity..|]. by destruct (setup_ok w).
Qed.

Lemma reload_config_object (data : dict) (d : daemon) :
  _reload_config (FileObject data) true d =
    (Ok tt,
     emit (EvGpioSetup (match data !! "control_pin" with Some v => v | None => JInt 21 end)
             (level_of (pin_state d)))
       (emit EvGpioSetmode
          (emit EvGpioCleanup
             (emit (EvLog DEBUG (MsgConfig (merged data)))
                (emit (EvLog INFO MsgReloaded)
                   (set_config (merged data) (emit EvOpenConfig d))))))).
Proof.
  unfold _reload_config. unfold mbind at 1, M_bind at 1.
  rewrite load_config_object. unfold _setup_pins. run_M. state_step.
  rewrite merged_control_pin. reflexivity.
Qed.

(** C7. A reload with a record that names another control pin calls
    [GPIO.cleanup] once, which releases the old pin, and [GPIO.setup] once,
    on the new pin. The initial level of that call is the stored state, which
    the reload does not change: HIGH when the fan is engaged, LOW when it is
    not. Afterwards the new pin is the only one set up, and the level last
    driven on it is the stored state. *)
Theorem reload_moves_pin (data : dict) (d : daemon) (old_pin new_pin : json) :
  config d !! "control_pin" = Some old_pin ->
  gpio_claimed (trace d) = [old_pin] ->
  data !! "control_pin" = Some new_pin ->
  new_pin <> old_pin ->
  exists c d',
    _reload_config (FileObject data) true d = (Ok tt, d') /\
    trace d' =
      trace d ++ [EvOpenConfig; EvLog INFO MsgReloaded; EvLog DEBUG (MsgConfig c);
                  EvGpioCleanup; EvGpioSetmode;
                  EvGpioSetup new_pin (if pin_state d then HIGH else LOW)] /\
    (pin_state d = true -> last (trace d') = Some (EvGpioSetup new_pin HIGH)) /\
    (pin_state d = false -> last (trace d') = Some (EvGpioSetup new_pin LOW)) /\
    pin_state d' = pin_state d /\
    config d' !! "control_pin" = Some new_pin /\
    gpio_claimed (trace d') = [new_pin] /\
    driven (trace d') = Some (new_pin, pin_state d).
Proof.
  intros _ Hold Hnew _. exists (merged data), (reloaded data d).
  split; [by rewrite reload_config_result|].
  unfold reloaded. rewrite Hnew. state_step.
  split; [by rewrite <- !app_assoc|].
  split; [intros ->; by rewrite last_snoc|].
  split; [intros ->; by rewrite last_snoc|].
  split; [reflexivity|].
  split; [by rewrite merged_control_pin, Hnew|].
  split.
  - unfold gpio_claimed. rewrite !fold_left_app. reflexivity.
  - unfold driven. rewrite !fold_left_app. cbn. by destruct (pin_state d).
Qed.

Lemma reload_moves_pin_witness :
  (exists c d',
     _reload_config (FileObject {[ "control_pin" := JInt 20 ]})
       true (emit (EvGpioSetup (JInt 21) LOW) (at_defaults true)) = (Ok tt, d') /\
     trace d' =
       [EvGpioSetup (JInt 21) LOW; EvOpenConfig; EvLog INFO MsgReloaded;
        EvLog DEBUG (MsgConfig c); EvGpioCleanup; EvGpioSetmode;
        EvGpioSetup (JInt 20) HIGH] /\
     pin_state d' = true /\
     gpio_claimed (trace d') = [JInt 20] /\
     driven (trace d') = Some (JInt 20, true)) /\
  (exists c d',
     _reload_config (FileObject {[ "control_pin" := JInt 20 ]})
       true (emit (EvGpioSetup (JInt 21) LOW) (at_defaults false)) = (Ok tt, d') /\
     trace d' =
       [EvGpioSetup (JInt 21) LOW; EvOpenConfig; EvLog INFO MsgReloaded;
        EvLog DEBUG (MsgConfig c); EvGpioCleanup; EvGpioSetmode;
        EvGpioSetup (JInt 20) LOW] /\
     pin_state d' = false /\
     gpio_claimed (trace d') = [JInt 20] /\
     driven (trace d') = Some (JInt 20, false)).
Proof.
  split.
  - destruct (reload_moves_pin {[ "control_pin" := JInt 20 ]}
                (emit (EvGpioSetup (JInt 21) LOW) (at_defaults true))
                (JInt 21) (JInt 20))
      as (c & d' & Hr & Htr & _ & _ & Hps & _ & Hcl & Hdr);
      [reflexivity | reflexivity | reflexivity | discriminate |].
    exists c, d'. split; [exact Hr|]. split; [exact Htr|]. split; [exact Hps|].
    split; [exact Hcl|exact Hdr].
  - destruct (reload_moves_pin {[ "control_pin" := JInt 20 ]}
                (emit (EvGpioSetup (JInt 21) LOW) (at_defaults false))
                (JInt 21) (JInt 20))
      as (c & d' & Hr & Htr & _ & _ & Hps & _ & Hcl & Hdr);
      [reflexivity | reflexivity | reflexivity | discriminate |].
    exists c, d'. split; [exact Hr|]. split; [exact Htr|]. split; [exact Hps|].
    split; [exact Hcl|exact Hdr].
Defined.

Lemma reload_step_object (w : world) (d : daemon) (data : dict) :
  reload_event d = true ->
  config_source w = FileObject data ->
  setup_ok w = true ->
  reload_step w d = (Ok tt, set_reload_event false (reloaded data d)).
Proof.
  intros Hflag Hsrc Hok. by rewrite reload_step_result, Hflag, Hsrc, Hok.
Qed.

(** C2, as the code has it. A reload installs the record of the file merged
    over the defaults, whatever its values: nothing is checked. 'Reloaded
    config' is logged, the pins are released and the control pin of the new
    configuration is set up, HIGH when the fan is engaged and LOW when it is
    not. When [GPIO.setup] accepts that pin, no error is logged, the loop
    keeps running and the reload flag is cleared. When it raises, the new
    configuration stays installed, the reload flag stays set and the
    exception leaves the loop. *)
Theorem reload_installs_any_record (w : world) (d : daemon) (data : dict) :
  reload_event d = true ->
  config_source w = FileObject data ->
  exists r d',
    reload_step w d = (r, d') /\
    config d' = merged data /\
    (forall k, k ≠ "log_format" ->
       config d' !! k =
         match data !! k with Some v => Some v | None => default_config !! k end) /\
    running d' = running d /\
    end_event d' = end_event d /\
    pin_state d' = pin_state d /\
    trace d' =
      trace d ++ [EvOpenConfig; EvLog INFO MsgReloaded;
                  EvLog DEBUG (MsgConfig (merged data));
                  EvGpioCleanup; EvGpioSetmode;
                  EvGpioSetup
                    (match data !! "control_pin" with Some v => v | None => JInt 21 end)
                    (if pin_state d then HIGH else LOW)] /\
    (pin_state d = true -> exists pin, last (trace d') = Some (EvGpioSetup pin HIGH)) /\
    (pin_state d = false -> exists pin, last (trace d') = Some (EvGpioSetup pin LOW)) /\
    filter is_error_log (trace d') = filter is_error_log (trace d) /\
    (setup_ok w = true -> r = Ok tt /\ reload_event d' = false) /\
    (setup_ok w = false -> r = Raise RuntimeError /\ reload_event d' = true).
Proof.
  intros Hflag Hsrc.
  exists (if setup_ok w then Ok tt else Raise RuntimeError).
  exists (if setup_ok w then set_reload_event false (reloaded data d)
          else reloaded data d).
  split; [rewrite reload_step_result, Hflag, Hsrc; by destruct (setup_ok w)|].
  assert (Htr : trace (reloaded data d) =
                trace d ++ [EvOpenConfig; EvLog INFO MsgReloaded;
                            EvLog DEBUG (MsgConfig (merged data));
                            EvGpioCleanup; EvGpioSetmode;
                            EvGpioSetup
                              (match data !! "control_pin" with
                               | Some v => v
                               | None => JInt 21
                               end)
                              (if pin_state d then HIGH else LOW)])
    by (unfold reloaded; state_step; by rewrite <- !app_assoc).
  assert (Hsame : forall f : daemon -> list event,
            (forall x, f (set_reload_event false x) = f x) ->
            f (if setup_ok w then set_reload_event false (reloaded data d)
               else reloaded data d) = f (reloaded data d))
    by (intros f Hf; destruct (setup_ok w); [apply Hf|reflexivity]).
  rewrite (Hsame trace) by done. rewrite Htr.
  split; [by destruct (setup_ok w)|].
  split; [destruct (setup_ok w); apply merged_lookup|].
  split; [by destruct (setup_ok w)|].
  split; [by destruct (setup_ok w)|].
  split; [by destruct (setup_ok w)|].
  split; [reflexivity|].
  split; [intros ->; eexists; rewrite last_app; reflexivity|].
  split; [intros ->; eexists; rewrite last_app; reflexivity|].
  split; [rewrite filter_app; cbn; by rewrite app_nil_r|].
  split; intros ->; [by split | split; [reflexivity|exact Hflag]].
Qed.

Lemma reload_installs_any_record_witness :
  (exists d',
     reload_step (reloading 50000 {[ "sleep" := JInt (-1) ]})
       (set_reload_event true (at_defaults true)) = (Ok tt, d') /\
     config d' !! "sleep" = Some (JInt (-1)) /\
     reload_event d' = false /\
     running d' = true /\
     last (trace d') = Some (EvGpioSetup (JInt 21) HIGH)) /\
  (exists d',
     reload_step
       (World (SensorValue (float_of_Z 50000)) true []
          (FileObject {[ "control_pin" := JString "fan" ]}) false)
       (set_reload_event true (at_defaults false)) = (Raise RuntimeError, d') /\
     config d' !! "control_pin" = Some (JString "fan") /\
     reload_event d' = true /\
     last (trace d') = Some (EvGpioSetup (JString "fan") LOW)).
Proof.
  split.
  - destruct (reload_installs_any_record (reloading 50000 {[ "sleep" := JInt (-1) ]})
                (set_reload_event true (at_defaults true)) {[ "sleep" := JInt (-1) ]})
      as (r & d' & Hr & _ & Hk & Hrun & _ & _ & Htr & _ & _ & _ & Hok & _);
      [reflexivity | reflexivity |].
    destruct (Hok eq_refl) as [-> Hflag].
    exists d'. split; [exact Hr|]. split; [by rewrite Hk|]. split; [exact Hflag|].
    split; [exact Hrun|]. by rewrite Htr.
  - destruct (reload_installs_any_record
                (World (SensorValue (float_of_Z 50000)) true []
                   (FileObject {[ "control_pin" := JString "fan" ]}) false)
                (set_reload_event true (at_defaults false))
                {[ "control_pin" := JString "fan" ]})
      as (r & d' & Hr & _ & Hk & _ & _ & _ & Htr & _ & _ & _ & _ & Hfail);
      [reflexivity | reflexivity |].
    destruct (Hfail eq_refl) as [-> Hflag].
    exists d'. split; [exact Hr|]. split; [by rewrite Hk|]. split; [exact Hflag|].
    by rewrite Htr.
Defined.

(** C2, as stated, fails: with the fan engaged, a reload whose record has
    temp_min 60 and temp_max 50 replaces the thresholds 45 and 55, and logs
    no error. *)
Lemma reload_accepts_inverted_thresholds :
  let data : dict := {[ "temp_min" := JInt 60; "temp_max" := JInt 50 ]} in
  let d := set_reload_event true (at_defaults true) in
  json_lt (JInt 60) (JInt 50) = false /\
  config d !! "temp_min" = Some (JInt 45) /\
  config d !! "temp_max" = Some (JInt 55) /\
  exists d',
    reload_step (reloading 50000 data) d = (Ok tt, d') /\
    config d' !! "temp_min" = Some (JInt 60) /\
    config d' !! "temp_max" = Some (JInt 50) /\
    filter is_error_log (trace d') = [].
Proof.
  intros data d. split; [reflexivity|]. split; [reflexivity|]. split; [reflexivity|].
  eexists. split; [by apply reload_step_object|]. unfold reloaded. state_step.
  rewrite !merged_lookup by done.
  split; [reflexivity|]. split; [reflexivity|]. reflexivity.
Qed.

(** ** Exit status *)

(** C6, as the code has it. Once the daemon object is built, the process
    exits with status 0 however [run] ends, on a stop request as on a
    failure inside the loop, which [run] catches and logs. A status other
    than 0 comes only from an exception that escapes the construction, and
    is then 1. *)
Theorem exit_status_after_run (b : boot) (ws : list world) (s : Z) (d : daemon) :
  main b ws = (Exit s, d) ->
  match __init__ b blank with
  | (Ok tt, d1) => s = 0 /\ run ws d1 = (Ok tt, d)
  | (Raise e, d1) => s = 1 /\ d = d1
  | (Pending, _) => False
  end.
Proof.
  unfold main. unfold mbind at 1, M_bind at 1.
  destruct (__init__ b blank) as [[[]|e|] d1].
  - destruct (run ws d1) as [[[]|e|] d2] eqn:Hrun; intros [= <- <-].
    + done.
    + by destruct (run_no_raise ws d1 d2 e).
  - by intros [= <- <-].
  - discriminate.
Qed.

Lemma exit_status_after_run_witness :
  exists d d1,
    main plain_boot [unreadable] = (Exit 0, d) /\
    __init__ plain_boot blank = (Ok tt, d1) /\
    run [unreadable] d1 = (Ok tt, d).
Proof.
  destruct (main plain_boot [unreadable]) as [o d] eqn:Hmain.
  assert (Ho : o = Exit 0) by (apply (f_equal fst) in Hmain; vm_compute in Hmain; congruence).
  subst o. pose proof (exit_status_after_run plain_boot [unreadable] 0 d Hmain) as H.
  destruct (__init__ plain_boot blank) as [[[]|e|] d1] eqn:Hinit.
  - exists d, d1. destruct H as [_ Hrun]. split; [reflexivity|]. split; [reflexivity|exact Hrun].
  - apply (f_equal fst) in Hinit. vm_compute in Hinit. discriminate.
  - destruct H.
Defined.

(** C6, as stated, fails: a run that ends on a failed read of the sensor,
    logged as an unexpected error, exits with status 0, as does a run that
    ends on SIGTERM. *)
Lemma failed_run_exits_zero :
  (exists d,
     main plain_boot [unreadable] = (Exit 0, d) /\
     filter is_error_log (trace d) = [EvLog ERROR (MsgUnexpected OSError)]) /\
  (exists d,
     main plain_boot [stopped 50000] = (Exit 0, d) /\
     filter is_error_log (trace d) = []).
Proof.
  split; eexists; (split; [vm_compute; reflexivity|]); vm_compute; reflexivity.
Qed.

(** ** The wait *)

Lemma handler_emit (ev : event) (s : signal) (d : daemon) :
  handler s (emit ev d) = emit ev (handler s d).
Proof. by destruct s. Qed.

Lemma late_emit (ev : event) (l : list (Q * signal)) (d : daemon) :
  late l (emit ev d) = emit ev (late l d).
Proof.
  revert d. induction l as [|[t s] l IH]; intros d; cbn [late]; [done|].
  by rewrite handler_emit, IH.
Qed.

Lemma late_frame (l : list (Q * signal)) (d : daemon) :
  config (late l d) = config d /\ pin_state (late l d) = pin_state d /\
  trace (late l d) = trace d.
Proof.
  revert d. induction l as [|[t s] l IH]; intros d; cbn [late]; [done|].
  destruct (IH (handler s d)) as (-> & -> & ->). by destruct s.
Qed.

Lemma late_app (l l' : list (Q * signal)) (d : daemon) :
  late (l ++ l') d = late l' (late l d).
Proof.
  revert d. induction l as [|[t s] l IH]; intros d; cbn [late app]; [done|].
  apply IH.
Qed.

Lemma late_reloads (l : list (Q * signal)) (d : daemon) :
  Forall (fun a => a.2 = SIGHUP) l ->
  l <> [] ->
  late l d = set_reload_event true d.
Proof.
  intros Hl Hne.
  assert (Hset : forall l, Forall (fun a : Q * signal => a.2 = SIGHUP) l ->
            late l (set_reload_event true d) = set_reload_event true d).
  { clear. intros l Hl. induction Hl as [|[t s] l Hs _ IH]; [done|].
    cbn in Hs. subst s. cbn [late handler]. exact IH. }
  destruct Hl as [|[t s] l Hs Hl]; [done|].
  cbn in Hs. subst s. cbn [late handler]. by apply Hset.
Qed.

Lemma late_stopped (l : list (Q * signal)) (d : daemon) :
  end_event d = true ->
  end_event (late l d) = true /\
  (running d = false -> running (late l d) = false) /\
  (reload_event d = true -> reload_event (late l d) = true).
Proof.
  revert d. induction l as [|[t s] l IH]; intros d He; cbn [late]; [done|].
  destruct (IH (handler s d)) as (-> & Hr & Hf); [by destruct s|].
  split; [done|]. split; intros H; [apply Hr|apply Hf]; by destruct s.
Qed.

(** The handlers of all the signals of the pass have run when the wait is
    over. *)
Lemma deliver_late (limit : option Q) (l rest : list (Q * signal))
    (d d' : daemon) (o : option Q) :
  deliver limit l d = (o, rest, d') -> late rest d' = late l d.
Proof.
  revert d. induction l as [|[t s] l IH]; intros d Hd; cbn [deliver] in Hd.
  - by simplify_eq.
  - destruct (in_time t limit); [|by simplify_eq].
    destruct (end_event (handler s d)); [by simplify_eq|].
    by rewrite (IH _ Hd).
Qed.

Lemma deliver_reloads_only (limit : option Q) (l : list (Q * signal)) (d : daemon) :
  Forall (fun a => a.2 = SIGHUP) l ->
  end_event d = false ->
  exists rest d', deliver limit l d = (None, rest, d').
Proof.
  intros Hl. revert d. induction Hl as [|[t s] l Hs _ IH]; intros d Hend.
  - by exists [], d.
  - cbn in Hs. subst s. cbn [deliver handler].
    destruct (in_time t limit); [|by eexists _, d].
    unfold __signal_reload_handler at 1. cbn [end_event set_reload_event].
    rewrite Hend. by apply IH.
Qed.

Lemma deliver_stop_after_reloads (q t : Q) (s : signal)
    (pre post : list (Q * signal)) (d : daemon) :
  Forall (fun a => a.2 = SIGHUP /\ Qltb a.1 q = true) pre ->
  Qltb t q = true ->
  is_stop s = true ->
  end_event d = false ->
  deliver (Some q) (pre ++ (t, s) :: post) d =
    (Some t, post, __signal_stop_handler (late pre d)).
Proof.
  intros Hpre Ht Hs. revert d.
  induction Hpre as [|[t' s'] pre [Hs' Ht'] _ IH]; intros d Hend.
  - cbn [app deliver in_time late]. rewrite Ht. by destruct s.
  - cbn in Hs', Ht'. subst s'. cbn [app deliver in_time handler late]. rewrite Ht'.
    unfold __signal_reload_handler at 1. cbn [end_event set_reload_event].
    rewrite Hend. by apply IH.
Qed.

Section TimedWait.

(** A wait with a positive finite timeout of [q] seconds that the lock
    accepts, entered with [end_event] clear. *)
Context (timeout : json) (q : Q) (d : daemon).
Hypothesis Htimeout : json_num timeout = Some (XFin q).
Hypothesis Hpositive : Qltb 0 q = true.
Hypothesis Hfits : too_large timeout = false.
Hypothesis Hclear : end_event d = false.

Lemma Event_wait_timed (l : list (Q * signal)) :
  Event_wait timeout l d =
    match deliver (Some q) l d with
    | (Some t, rest, d') => (Ok tt, late rest (emit (EvWaited t) d'))
    | (None, rest, d') => (Ok tt, late rest (emit (EvWaited q) d'))
    end.
Proof.
  unfold Event_wait. rewrite Hclear.
  destruct timeout; try discriminate; rewrite Htimeout, Hpositive, Hfits; reflexivity.
Qed.

(** While no stop signal arrives the wait lasts the full timeout. *)
Lemma Event_wait_reloads_only (l : list (Q * signal)) :
  Forall (fun a => a.2 = SIGHUP) l ->
  Event_wait timeout l d = (Ok tt, emit (EvWaited q) (late l d)).
Proof.
  intros Hl. rewrite Event_wait_timed.
  destruct (deliver_reloads_only (Some q) l d Hl Hclear) as (rest & d' & Hd).
  rewrite Hd. by rewrite late_emit, (deliver_late _ _ _ _ _ _ Hd).
Qed.

(** C4, as the code has it. The wait is on [end_event] alone. With no signal
    it lasts the full timeout. The handler of the reload signal sets
    [reload_event] only: reload signals that arrive during the wait leave
    that flag set and the wait still lasts the full timeout. A stop signal
    ends the wait at its arrival. In both cases the pass acts on the pending
    reload when the wait is over: the configuration file is opened right
    after the wait, at the timeout or at the stop. *)
Theorem wait_ends_early_on_stop_only (t : Q) (s : signal)
    (hups post : list (Q * signal)) (w : world) (d0 : daemon) :
  hups <> [] ->
  Forall (fun a => a.2 = SIGHUP /\ Qltb a.1 q = true) hups ->
  Qltb t q = true ->
  is_stop s = true ->
  Event_wait timeout [] d = (Ok tt, emit (EvWaited q) d) /\
  Event_wait timeout hups d = (Ok tt, emit (EvWaited q) (set_reload_event true d)) /\
  (exists d',
     Event_wait timeout (hups ++ (t, s) :: post) d = (Ok tt, d') /\
     trace d' = trace d ++ [EvWaited t] /\
     end_event d' = true /\ running d' = false /\ reload_event d' = true) /\
  (work w d0 = (Ok tt, d) -> config d !! "sleep" = Some timeout ->
   arrivals w = hups ->
   exists r d' tl,
     iteration w d0 = (r, d') /\
     trace d' = trace d ++ EvWaited q :: EvOpenConfig :: tl) /\
  (work w d0 = (Ok tt, d) -> config d !! "sleep" = Some timeout ->
   arrivals w = hups ++ (t, s) :: post ->
   exists r d' tl,
     iteration w d0 = (r, d') /\
     trace d' = trace d ++ EvWaited t :: EvOpenConfig :: tl /\
     running d' = false) /\
  __signal_reload_handler d = set_reload_event true d /\
  end_event (__signal_reload_handler d) = end_event d /\
  end_event (__signal_stop_handler d) = true.
Proof.
  intros Hne Hhups Ht Hs.
  assert (Hsig : Forall (fun a : Q * signal => a.2 = SIGHUP) hups)
    by (eapply Forall_impl; [exact Hhups|by intros ? [? _]]).
  assert (Hfull : Event_wait timeout hups d =
                  (Ok tt, emit (EvWaited q) (set_reload_event true d)))
    by (by rewrite Event_wait_reloads_only, (late_reloads hups d Hsig Hne)).
  assert (Hstop : Event_wait timeout (hups ++ (t, s) :: post) d =
                  (Ok tt, late post (emit (EvWaited t)
                     (__signal_stop_handler (set_reload_event true d))))).
  { rewrite Event_wait_timed.
    rewrite (deliver_stop_after_reloads q t s hups post d Hhups Ht Hs Hclear).
    by rewrite (late_reloads hups d Hsig Hne). }
  assert (Hreload : forall d2 x,
            reload_event d2 = true -> trace d2 = trace d ++ [EvWaited x] ->
            exists r d' tl,
              reload_step w d2 = (r, d') /\
              trace d' = trace d ++ EvWaited x :: EvOpenConfig :: tl /\
              running d' = running d2).
  { intros d2 x Hflag Htr. rewrite reload_step_result, Hflag.
    destruct (config_source w) as [| |data]; [| |destruct (setup_ok w)];
      eexists _, _, _; (split; [reflexivity|]);
      unfold reloaded; state_step; rewrite Htr, <- ?app_assoc; split; reflexivity. }
  assert (Hpass : forall l d2,
            work w d0 = (Ok tt, d) -> config d !! "sleep" = Some timeout ->
            arrivals w = l -> Event_wait timeout l d = (Ok tt, d2) ->
            iteration w d0 = reload_step w d2).
  { intros l d2 Hw Hsleep Harr Hwait. unfold iteration. run_M.
    rewrite Hw, Hsleep, Harr, Hwait. reflexivity. }
  split; [by rewrite Event_wait_reloads_only|].
  split; [exact Hfull|].
  destruct (late_stopped post
              (emit (EvWaited t) (__signal_stop_handler (set_reload_event true d)))
              eq_refl) as (Hend' & Hrun' & Hflag').
  destruct (late_frame post
              (emit (EvWaited t) (__signal_stop_handler (set_reload_event true d))))
    as (_ & _ & Htr').
  split; [eexists; split; [exact Hstop|]; by rewrite Htr', Hend', Hrun', Hflag'|].
  split; [|split; [|done]].
  - intros Hw Hsleep Harr. rewrite (Hpass _ _ Hw Hsleep Harr Hfull).
    destruct (Hreload (emit (EvWaited q) (set_reload_event true d)) q eq_refl eq_refl)
      as (r & d' & tl & Hr & Htr & _).
    by exists r, d', tl.
  - intros Hw Hsleep Harr. rewrite (Hpass _ _ Hw Hsleep Harr Hstop).
    destruct (Hreload _ t (Hflag' eq_refl) Htr') as (r & d' & tl & Hr & Htr & Hrun).
    exists r, d', tl. split; [exact Hr|]. split; [exact Htr|].
    rewrite Hrun. by apply Hrun'.
Qed.

End TimedWait.

Lemma wait_ends_early_on_stop_only_witness :
  exists d temp,
    work (hangup 50000) (at_defaults false) = (Ok tt, d) /\
    Event_wait (JInt 1) [] d = (Ok tt, emit (EvWaited 1) d) /\
    Event_wait (JInt 1) [(Qmake 1 4, SIGHUP)] d =
      (Ok tt, emit (EvWaited 1) (set_reload_event true d)) /\
    (exists d',
       Event_wait (JInt 1) ([(Qmake 1 4, SIGHUP)] ++ (Qmake 1 2, SIGTERM) :: []) d =
         (Ok tt, d') /\
       trace d' = [EvOpenSensor; EvLog DEBUG (MsgTemp temp); EvWaited (Qmake 1 2)] /\
       end_event d' = true /\ running d' = false /\ reload_event d' = true) /\
    (exists r d' tl,
       iteration (hangup 50000) (at_defaults false) = (r, d') /\
       trace d' =
         [EvOpenSensor; EvLog DEBUG (MsgTemp temp)] ++
         EvWaited 1 :: EvOpenConfig :: tl).
Proof.
  set (d := (work (hangup 50000) (at_defaults false)).2).
  assert (Hw : work (hangup 50000) (at_defaults false) = (Ok tt, d))
    by (vm_compute; reflexivity).
  assert (Hsleep : config d !! "sleep" = Some (JInt 1)) by (vm_compute; reflexivity).
  assert (Hclear : end_event d = false) by (vm_compute; reflexivity).
  assert (Htr : trace d =
                [EvOpenSensor; EvLog DEBUG (MsgTemp (celsius (float_of_Z 50000)))])
    by (vm_compute; reflexivity).
  destruct (wait_ends_early_on_stop_only (JInt 1) 1 d eq_refl eq_refl eq_refl Hclear
              (Qmake 1 2) SIGTERM [(Qmake 1 4, SIGHUP)] [] (hangup 50000)
              (at_defaults false))
    as (Hnone & Hfull & (d1 & Hstop & Htr1 & Hflags) & Hpass & _);
    [discriminate | repeat constructor | reflexivity | reflexivity |].
  destruct (Hpass Hw Hsleep eq_refl) as (r & d' & tl & Hi & Htr').
  exists d, (celsius (float_of_Z 50000)).
  split; [exact Hw|]. split; [exact Hnone|]. split; [exact Hfull|].
  split.
  - exists d1. split; [exact Hstop|]. split; [by rewrite Htr1, Htr|exact Hflags].
  - exists r, d', tl. split; [exact Hi|]. by rewrite Htr', Htr.
Defined.

(** C4, as stated, fails: a reload signal a quarter of a second into a wait
    of one second sets the reload flag, and the wait lasts the full second;
    the configuration is read again only after it. *)
Lemma reload_signal_does_not_wake :
  (exists d',
     Event_wait (JInt 1) [(Qmake 1 4, SIGHUP)] (at_defaults false) = (Ok tt, d') /\
     reload_event d' = true /\
     trace d' = [EvWaited 1]) /\
  (exists d' temp c,
     iteration (hangup 50000) (at_defaults false) = (Ok tt, d') /\
     trace d' =
       [EvOpenSensor; EvLog DEBUG (MsgTemp temp); EvWaited 1; EvOpenConfig;
        EvLog INFO MsgReloaded; EvLog DEBUG (MsgConfig c); EvGpioCleanup;
        EvGpioSetmode; EvGpioSetup (JInt 21) LOW]).
Proof.
  split.
  - eexists. split; [vm_compute; reflexivity|]. split; reflexivity.
  - eexists. eexists. eexists. split; vm_compute; reflexivity.
Qed.

(** * Further properties of the code *)

(** ** What a pass that returns has done *)

(** As [work_cases], for a call whose outcome is known. *)
Ltac work_inv H :=
  unfold work, _get_temp in H; run_M in H; state_simpl H;
  repeat case_step H;
  simplify_eq;
  cbn [config pin_state running end_event reload_event trace emit
       set_pin_state] in *.

Lemma work_ok_inv (w : world) (d d1 : daemon) :
  work w d = (Ok tt, d1) ->
  exists pin f,
    config d !! "control_pin" = Some pin /\
    sensor w = SensorValue f /\
    let d0 := emit (EvLog DEBUG (MsgTemp (celsius f))) (emit EvOpenSensor d) in
    (d1 = d0 \/
     d1 = emit (EvLog INFO (MsgChanged pin (negb (pin_state d))))
            (emit (EvGpioOutput pin (negb (pin_state d)))
               (set_pin_state (negb (pin_state d)) d0))).
Proof.
  intros Hw. work_inv Hw; eauto 10.
Qed.

Lemma Event_wait_frame (timeout : json) (l : list (Q * signal)) (d d' : daemon)
    (r : result unit) :
  Event_wait timeout l d = (r, d') ->
  config d' = config d /\ pin_state d' = pin_state d /\
  r <> Raise KeyError /\
  (trace d' = trace d \/ exists t, trace d' = trace d ++ [EvWaited t]).
Proof.
  unfold Event_wait. intros Hw.
  repeat match type of Hw with
  | context [match deliver ?lim ?l ?d with _ => _ end] =>
      let H := fresh "Hd" in
      destruct (deliver lim l d) as [[[?|] ?] ?] eqn:H;
      apply deliver_late in H
  | context [match ?x with _ => _ end] =>
      lazymatch x with
      | context [match _ with _ => _ end] => fail
      | _ => destruct x eqn:?
      end
  end.
  all: simplify_eq; rewrite ?late_emit; cbn [config pin_state trace emit].
  all: pose proof (late_frame l d) as (Hc & Hp & Ht).
  all: try match goal with
       | H : late ?r ?d1 = late _ _ |- _ =>
           pose proof (late_frame r d1) as (Hc' & Hp' & Ht');
           rewrite H in Hc', Hp', Ht'
       end.
  all: repeat split; try congruence; try discriminate.
  all: first [left; congruence | right; eexists; f_equal; congruence].
Qed.

Lemma init_result (b : boot) :
  __init__ b blank =
    match boot_config b with
    | FileUnreadable => (Raise OSError, emit EvOpenConfig blank)
    | FileUndecodable => (Raise ValueError, emit EvOpenConfig blank)
    | FileObject data =>
        match boot_logging b with
        | Some e => (Raise e, set_config (merged data) (emit EvOpenConfig blank))
        | None =>
            if boot_setup_ok b then (Ok tt, emit (EvLog INFO MsgInited) (built data))
            else (Raise RuntimeError, built data)
        end
    end.
Proof.
  unfold __init__. unfold mbind at 1, M_bind at 1.
  rewrite load_config_result. destruct (boot_config b) as [| |data]; [reflexivity..|].
  unfold _setup_pins, built. run_M. state_step.
  destruct (boot_logging b); [reflexivity|]. state_step.
  rewrite merged_control_pin. by destruct (boot_setup_ok b).
Qed.

Lemma iteration_ok_inv (w : world) (d d' : daemon) :
  iteration w d = (Ok tt, d') ->
  exists d1 d2 timeout,
    work w d = (Ok tt, d1) /\
    config d1 !! "sleep" = Some timeout /\
    Event_wait timeout (arrivals w) d1 = (Ok tt, d2) /\
    reload_step w d2 = (Ok tt, d').
Proof.
  unfold iteration. run_M.
  destruct (work w d) as [[[]| |] d1]; try discriminate.
  destruct (config d1 !! "sleep") as [timeout|] eqn:Hs; try discriminate.
  destruct (Event_wait timeout (arrivals w) d1) as [[[]| |] d2] eqn:Hw;
    try discriminate.
  intros Hr. by exists d1, d2, timeout.
Qed.

(** ** The configuration that is loaded *)

Lemma default_config_keys (k : string) :
  k ∉ config_keys -> default_config !! k = None.
Proof.
  intros Hk. unfold default_config.
  repeat (rewrite lookup_insert_ne; [|intros <-; apply Hk; unfold config_keys; set_solver]).
  apply lookup_empty.
Qed.

Lemma default_config_complete (k : string) :
  k ∈ config_keys -> is_Some (default_config !! k).
Proof.
  unfold config_keys. intros Hk.
  repeat (apply elem_of_cons in Hk as [->|Hk]; [by eexists|]).
  by apply elem_of_nil in Hk.
Qed.

Lemma joined_format_truthy :
  truthy (JString (String.concat " " log_format)) = true.
Proof. reflexivity. Qed.

Lemma merged_complete (data : dict) : complete (merged data).
Proof.
  split.
  - intros k Hk. destruct (decide (k = "log_format")) as [->|Hne].
    + rewrite merged_log_format.
      destruct (data !! "log_format") as [v|]; [destruct (truthy v)|]; by eexists.
    + rewrite merged_lookup by done.
      destruct (data !! k); [by eexists|by apply default_config_complete].
  - rewrite merged_log_format.
    destruct (data !! "log_format") as [v|] eqn:Hv; [destruct (truthy v) eqn:Ht|];
      eauto using joined_format_truthy.
Qed.

Lemma merged_fixed (c : dict) : complete c -> merged c = c.
Proof.
  intros [Hkeys (fmt & Hfmt & Htrue)]. apply map_eq. intros k.
  destruct (decide (k = "log_format")) as [->|Hne].
  - by rewrite merged_log_format, Hfmt, Htrue.
  - rewrite merged_lookup by done. destruct (c !! k) eqn:Hk; [done|].
    destruct (decide (k ∈ config_keys)) as [Hin|Hout].
    + destruct (Hkeys k Hin) as [v Hv]. congruence.
    + by apply default_config_keys.
Qed.

(** X1. Whatever record the file holds, the configuration [_load_config]
    returns has a value for each of the seven default keys and a true
    [log_format]: no later read of a default key can fail. *)
Theorem loaded_config_complete (src : file_reading) (d d' : daemon) (c : dict) :
  _load_config src d = (Ok c, d') -> complete c.
Proof.
  rewrite load_config_result. destruct src; try discriminate.
  intros [= <- _]. apply merged_complete.
Qed.

Lemma loaded_config_complete_witness :
  complete (merged {[ "temp_max" := JInt 60 ]}).
Proof.
  apply (loaded_config_complete (FileObject {[ "temp_max" := JInt 60 ]})
           blank (emit EvOpenConfig blank)).
  apply load_config_object.
Defined.

(** X2. Loading is idempotent: a file that holds the configuration a load
    has returned loads to that same configuration, and so does every file
    that holds all seven keys with a true [log_format]. *)
Theorem load_config_idempotent (data c : dict) (d d1 : daemon) :
  _load_config (FileObject data) d = (Ok c, d1) ->
  _load_config (FileObject c) d1 = (Ok c, emit EvOpenConfig d1).
Proof.
  rewrite !load_config_result. intros [= <- _].
  by rewrite (merged_fixed _ (merged_complete data)).
Qed.

Lemma load_config_idempotent_witness :
  _load_config (FileObject (merged {[ "sleep" := JInt 5 ]}))
    (emit EvOpenConfig blank) =
    (Ok (merged {[ "sleep" := JInt 5 ]}), emit EvOpenConfig (emit EvOpenConfig blank)).
Proof.
  apply (load_config_idempotent {[ "sleep" := JInt 5 ]} _ blank).
  apply load_config_object.
Defined.

(** ** Invariants of the loop *)

Lemma driven_app (tr evs : list event) :
  driven (tr ++ evs) = fold_left drive_step evs (driven tr).
Proof. apply fold_left_app. Qed.

Lemma work_config (w : world) (d d1 : daemon) (r : result unit) :
  work w d = (r, d1) -> config d1 = config d.
Proof. intros Hw. work_cases Hw; reflexivity. Qed.

Lemma work_no_KeyError (w : world) (d d1 : daemon) :
  complete (config d) -> work w d <> (Raise KeyError, d1).
Proof.
  intros [Hkeys _] Hw.
  destruct (Hkeys "control_pin") as [? ?]; [unfold config_keys; set_solver|].
  destruct (Hkeys "temp_max") as [? ?]; [unfold config_keys; set_solver|].
  destruct (Hkeys "temp_min") as [? ?]; [unfold config_keys; set_solver|].
  work_inv Hw; congruence.
Qed.

Lemma work_sync (w : world) (d d1 : daemon) :
  in_sync d -> work w d = (Ok tt, d1) -> in_sync d1.
Proof.
  intros (pin & Hpin & Hdr) Hw.
  destruct (work_ok_inv w d d1 Hw) as (pin' & f & Hpin' & _ & [-> | ->]);
    exists pin; cbn [config pin_state trace emit set_pin_state];
    (split; [exact Hpin|]); rewrite <- ?app_assoc, driven_app, Hdr.
  - reflexivity.
  - cbn. congruence.
Qed.

Lemma Event_wait_sync (timeout : json) (l : list (Q * signal)) (d d' : daemon)
    (r : result unit) :
  in_sync d -> Event_wait timeout l d = (r, d') -> in_sync d'.
Proof.
  intros (pin & Hpin & Hdr) Hw.
  destruct (Event_wait_frame _ _ _ _ _ Hw) as (Hc & Hps & _ & Htr).
  exists pin. rewrite Hc, Hps. split; [exact Hpin|].
  destruct Htr as [-> | [t ->]]; [exact Hdr|]. by rewrite driven_app, Hdr.
Qed.

Lemma reloaded_sync (data : dict) (d : daemon) :
  in_sync (set_reload_event false (reloaded data d)).
Proof.
  eexists. cbn [config pin_state trace emit set_config set_reload_event reloaded].
  split; [apply merged_control_pin|].
  rewrite <- !app_assoc, driven_app. cbn. by destruct (pin_state d).
Qed.

Lemma reload_step_sync (w : world) (d d' : daemon) :
  in_sync d -> reload_step w d = (Ok tt, d') -> in_sync d'.
Proof.
  intros Hs. rewrite reload_step_result.
  destruct (reload_event d); [|by intros [= <-]].
  destruct (config_source w) as [| |data]; try discriminate.
  destruct (setup_ok w); try discriminate.
  intros [= <-]. apply reloaded_sync.
Qed.

Lemma iteration_sync (w : world) (d d' : daemon) :
  in_sync d -> iteration w d = (Ok tt, d') -> in_sync d'.
Proof.
  intros Hs Hi.
  destruct (iteration_ok_inv w d d' Hi) as (d1 & d2 & timeout & Hw & _ & Hwait & Hr).
  eauto using work_sync, Event_wait_sync, reload_step_sync.
Qed.

Lemma passes_sync (ws : list world) (d d' : daemon) :
  in_sync d -> passes ws d = Some d' -> in_sync d'.
Proof.
  revert d. induction ws as [|w ws IH]; intros d Hs Hp; cbn [passes] in Hp.
  - by injection Hp as <-.
  - destruct (running d); [|discriminate].
    destruct (iteration w d) as [[[]| |] d1] eqn:Hi; try discriminate.
    eauto using iteration_sync.
Qed.

Lemma built_sync (data : dict) :
  in_sync (started (emit (EvLog INFO MsgInited) (built data))).
Proof.
  eexists. split; [apply merged_control_pin|]. reflexivity.
Qed.

(** X3. After every pass that returns, the stored [pin_state] is the level
    that the last call of [GPIO.setup] or [GPIO.output] has driven, and the
    pin of that call is the configured [control_pin]; this holds from the
    construction on, through changes of state and reloads. *)
Theorem pin_state_in_sync (b : boot) (ws : list world) (d1 d : daemon) :
  __init__ b blank = (Ok tt, d1) ->
  passes ws (started d1) = Some d ->
  exists pin,
    config d !! "control_pin" = Some pin /\
    driven (trace d) = Some (pin, pin_state d).
Proof.
  rewrite init_result. destruct (boot_config b) as [| |data]; try discriminate.
  destruct (boot_logging b); try discriminate.
  destruct (boot_setup_ok b); try discriminate.
  intros [= <-] Hp. apply (passes_sync ws _ d (built_sync data) Hp).
Qed.

Lemma pin_state_in_sync_witness :
  exists d pin,
    passes [reading 56000; hangup 56000; reading 40000]
      (started (emit (EvLog INFO MsgInited) (built ∅))) = Some d /\
    pin_state d = false /\
    config d !! "control_pin" = Some pin /\
    driven (trace d) = Some (pin, false).
Proof.
  eassert (Hp : passes [reading 56000; hangup 56000; reading 40000]
                  (started (emit (EvLog INFO MsgInited) (built ∅))) = Some _)
    by (vm_compute; reflexivity).
  assert (Hinit : __init__ plain_boot blank =
                    (Ok tt, emit (EvLog INFO MsgInited) (built ∅)))
    by (vm_compute; reflexivity).
  destruct (pin_state_in_sync plain_boot _ _ _ Hinit Hp) as (pin & Hpin & Hdr).
  eexists _, pin. split; [exact Hp|]. split; [reflexivity|].
  split; [exact Hpin|exact Hdr].
Defined.

Lemma reload_step_complete (w : world) (d d' : daemon) (r : result unit) :
  complete (config d) ->
  reload_step w d = (r, d') ->
  r <> Raise KeyError /\ (r = Ok tt -> complete (config d')).
Proof.
  intros Hc. rewrite reload_step_result.
  destruct (reload_event d); [|by intros [= <- <-]].
  destruct (config_source w) as [| |data]; try by intros [= <- <-].
  destruct (setup_ok w); intros [= <- <-]; (split; [done|]); intros _;
    apply merged_complete.
Qed.

Lemma iteration_complete (w : world) (d d' : daemon) (r : result unit) :
  complete (config d) ->
  iteration w d = (r, d') ->
  r <> Raise KeyError /\ (r = Ok tt -> complete (config d')).
Proof.
  intros Hc. unfold iteration. run_M.
  destruct (work w d) as [[[]|e|] d1] eqn:Hw.
  - rewrite (work_config _ _ _ _ Hw).
    destruct (proj1 Hc "sleep") as [timeout ->]; [unfold config_keys; set_solver|].
    destruct (Event_wait timeout (arrivals w) d1) as [[[]|e|] d2] eqn:Hwait;
      destruct (Event_wait_frame _ _ _ _ _ Hwait) as (Hc2 & _ & Hne & _).
    + apply reload_step_complete. by rewrite Hc2, (work_config _ _ _ _ Hw).
    + intros [= <- <-]. split; [congruence|discriminate].
    + by intros [= <- <-].
  - intros [= <- <-]. split; [|discriminate].
    intros [= ->]. by apply (work_no_KeyError w d d1).
  - by intros [= <- <-].
Qed.

Lemma loop_no_KeyError (ws : list world) (d d' : daemon) :
  complete (config d) -> loop ws d <> (Raise KeyError, d').
Proof.
  revert d. induction ws as [|w ws IH]; intros d Hc; cbn [loop].
  - by destruct (running d).
  - destruct (running d); [|discriminate]. run_M.
    destruct (iteration w d) as [[[]|e|] d1] eqn:Hi;
      destruct (iteration_complete _ _ _ _ Hc Hi) as [Hne Hok].
    + apply IH. by apply Hok.
    + congruence.
    + discriminate.
Qed.

(** X4. Once the daemon object is built, no pass of the loop raises
    [KeyError], whatever the files, signals and sensor answer and however
    often the configuration is reloaded: every configuration the loop runs
    on has all the keys it reads. *)
Theorem run_never_misses_a_key (b : boot) (ws : list world) (d1 d' : daemon) :
  __init__ b blank = (Ok tt, d1) ->
  loop ws (started d1) <> (Raise KeyError, d').
Proof.
  rewrite init_result. destruct (boot_config b) as [| |data]; try discriminate.
  destruct (boot_logging b); try discriminate.
  destruct (boot_setup_ok b); try discriminate.
  intros [= <-]. apply loop_no_KeyError. apply merged_complete.
Qed.

Lemma run_never_misses_a_key_witness :
  loop [reloading 50000 {[ "temp_max" := JString "hot" ]}; reading 50000]
    (started (emit (EvLog INFO MsgInited) (built ∅))) <> (Raise KeyError, blank).
Proof.
  apply (run_never_misses_a_key plain_boot). vm_compute. reflexivity.
Defined.

(** ** How a run ends *)

Lemma work_flags (w : world) (d d1 : daemon) (r : result unit) :
  work w d = (r, d1) ->
  running d1 = running d /\ end_event d1 = end_event d /\
  reload_event d1 = reload_event d.
Proof. intros Hw. work_cases Hw; done. Qed.

Lemma run_iteration_raises (pre post : list world) (w : world)
    (d0 d d1 : daemon) (e : exn) :
  passes pre (started d0) = Some d ->
  running d = true ->
  iteration w d = (Raise e, d1) ->
  run (pre ++ w :: post) d0 =
    (Ok tt, emit (EvLog INFO MsgShutdown)
              (emit EvGpioCleanup (emit (EvLog ERROR (MsgUnexpected e)) d1))).
Proof.
  intros Hpre Hrun Hi.
  by rewrite run_unfold, (loop_app _ _ _ _ Hpre), loop_cons, Hi by done.
Qed.

(** X5. Whatever exception a pass of the loop raises, in [work], in the
    wait or in the reload, [run] logs it as an unexpected error, releases
    the pins once, logs the shutdown and returns normally; the state is the
    one the failing pass left, and no later pass is made. *)
Theorem run_contains_any_exception (pre : list world) (w : world)
    (d0 d d1 : daemon) (e : exn) :
  passes pre (started d0) = Some d ->
  running d = true ->
  iteration w d = (Raise e, d1) ->
  exists d',
    (forall post, run (pre ++ w :: post) d0 = (Ok tt, d')) /\
    trace d' =
      trace d1 ++ [EvLog ERROR (MsgUnexpected e); EvGpioCleanup;
                   EvLog INFO MsgShutdown] /\
    config d' = config d1 /\ pin_state d' = pin_state d1.
Proof.
  intros Hpre Hrun Hi. eexists. split.
  - intros post. apply (run_iteration_raises pre post w d0 d d1 e Hpre Hrun Hi).
  - cbn [trace config pin_state emit]. by rewrite <- !app_assoc.
Qed.

Lemma run_contains_any_exception_witness :
  exists d1 d',
    iteration (reading 50000)
      (started (set_config (<["sleep" := JString "1"]> default_config)
                  (at_defaults false))) = (Raise TypeError, d1) /\
    (forall post,
       run ([] ++ reading 50000 :: post)
         (set_config (<["sleep" := JString "1"]> default_config)
            (at_defaults false)) = (Ok tt, d')) /\
    trace d' =
      trace d1 ++ [EvLog ERROR (MsgUnexpected TypeError); EvGpioCleanup;
                   EvLog INFO MsgShutdown].
Proof.
  eassert (Hi : iteration (reading 50000)
                  (started (set_config (<["sleep" := JString "1"]> default_config)
                              (at_defaults false))) = (Raise TypeError, _))
    by (vm_compute; reflexivity).
  destruct (run_contains_any_exception [] (reading 50000)
              (set_config (<["sleep" := JString "1"]> default_config)
                 (at_defaults false)) _ _ TypeError eq_refl eq_refl Hi)
    as (d' & Hrun & Htr & _).
  eexists _, d'. split; [exact Hi|]. split; [exact Hrun|exact Htr].
Defined.

(** X6. A reload whose configuration file cannot be opened or decoded is
    fatal: the exception leaves the loop before any pin is touched, the
    previous configuration stays in place and the reload flag stays set,
    and [run] logs the error, releases the pins and returns. *)
Theorem failed_reload_ends_run (pre : list world) (w : world)
    (d0 d d1 d2 : daemon) (timeout : json) :
  passes pre (started d0) = Some d ->
  running d = true ->
  work w d = (Ok tt, d1) ->
  config d1 !! "sleep" = Some timeout ->
  Event_wait timeout (arrivals w) d1 = (Ok tt, d2) ->
  reload_event d2 = true ->
  config_source w = FileUnreadable \/ config_source w = FileUndecodable ->
  exists e d',
    (forall post, run (pre ++ w :: post) d0 = (Ok tt, d')) /\
    trace d' =
      trace d2 ++ [EvOpenConfig; EvLog ERROR (MsgUnexpected e); EvGpioCleanup;
                   EvLog INFO MsgShutdown] /\
    config d' = config d /\
    reload_event d' = true.
Proof.
  intros Hpre Hrun Hw Hsleep Hwait Hflag Hsrc.
  assert (exists e, iteration w d = (Raise e, emit EvOpenConfig d2)) as [e Hi].
  { unfold iteration. run_M. rewrite Hw, Hsleep, Hwait.
    fold (reload_step w d2). rewrite reload_step_result, Hflag.
    destruct Hsrc as [-> | ->]; eauto. }
  exists e. eexists. split.
  - intros post. apply (run_iteration_raises pre post w d0 d _ e Hpre Hrun Hi).
  - cbn [trace config reload_event emit]. rewrite <- !app_assoc.
    destruct (Event_wait_frame _ _ _ _ _ Hwait) as (-> & _).
    by rewrite (work_config _ _ _ _ Hw).
Qed.

Lemma failed_reload_ends_run_witness :
  exists d',
    (forall post,
       run ([] ++ World (SensorValue (float_of_Z 50000)) true
                    [(Qmake 1 4, SIGHUP)] FileUndecodable true :: post)
         (at_defaults true) = (Ok tt, d')) /\
    config d' = default_config /\
    reload_event d' = true /\
    gpio_writes (trace d') = [].
Proof.
  set (w := World (SensorValue (float_of_Z 50000)) true
              [(Qmake 1 4, SIGHUP)] FileUndecodable true).
  set (d1 := (work w (started (at_defaults true))).2).
  set (d2 := (Event_wait (JInt 1) (arrivals w) d1).2).
  assert (Hw : work w (started (at_defaults true)) = (Ok tt, d1))
    by (vm_compute; reflexivity).
  assert (Hwait : Event_wait (JInt 1) (arrivals w) d1 = (Ok tt, d2))
    by (vm_compute; reflexivity).
  destruct (failed_reload_ends_run [] w (at_defaults true) _ d1 d2 (JInt 1)
              eq_refl eq_refl Hw eq_refl Hwait eq_refl (or_intror eq_refl))
    as (e & d' & Hrun & Htr & Hc & Hflag).
  exists d'. split; [exact Hrun|]. split; [exact Hc|]. split; [exact Hflag|].
  rewrite Htr. reflexivity.
Defined.

Lemma loop_not_running (ws : list world) (d : daemon) :
  running d = false -> loop ws d = (Ok tt, d).
Proof. intros Hr. destruct ws; cbn [loop]; by rewrite Hr. Qed.

(** X7. A stop signal that arrives during the wait of a pass, before the
    timeout, ends the run cleanly when no reload is requested in that pass:
    the wait ends at the arrival, the loop makes no further pass and reads no
    further temperature, the pins are released once, the shutdown is logged
    and no error is. The sleep is a positive number that the lock accepts as
    a timeout. *)
Theorem stop_request_ends_run (pre : list world) (w : world)
    (d0 d d1 : daemon) (timeout : json) (q t : Q) (s : signal)
    (rest : list (Q * signal)) :
  passes pre (started d0) = Some d ->
  running d = true ->
  end_event d = false ->
  reload_event d = false ->
  work w d = (Ok tt, d1) ->
  config d !! "sleep" = Some timeout ->
  json_num timeout = Some (XFin q) ->
  Qltb 0 q = true ->
  too_large timeout = false ->
  arrivals w = (t, s) :: rest ->
  is_stop s = true ->
  Qltb t q = true ->
  Forall (fun a => is_stop a.2 = true) rest ->
  exists d',
    (forall post, run (pre ++ w :: post) d0 = (Ok tt, d')) /\
    trace d' = trace d1 ++ [EvWaited t; EvGpioCleanup; EvLog INFO MsgShutdown] /\
    pin_state d' = pin_state d1 /\
    running d' = false.
Proof.
  intros Hpre Hrun Hend Hreload Hw Hsleep Hnum Hpos Hfits Harr Hs Ht Hrest.
  destruct (work_flags _ _ _ _ Hw) as (_ & Hend1 & Hreload1).
  rewrite Hend in Hend1. rewrite Hreload in Hreload1.
  assert (Hstops : forall l d2,
            Forall (fun a : Q * signal => is_stop a.2 = true) l ->
            end_event d2 = true -> running d2 = false ->
            late l d2 = d2).
  { clear. intros l d2 Hl. induction Hl as [|[t s] l Hs _ IH]; intros He Hr; [done|].
    cbn [late]. cbn in Hs.
    assert (handler s d2 = d2) as ->; [|by apply IH].
    destruct s; try discriminate; destruct d2; cbn in *; by subst. }
  assert (Hi : iteration w d = (Ok tt, emit (EvWaited t) (__signal_stop_handler d1))).
  { unfold iteration. run_M. rewrite Hw, (work_config _ _ _ _ Hw), Hsleep.
    rewrite (Event_wait_timed timeout q d1 Hnum Hpos Hfits Hend1), Harr.
    cbn [deliver in_time]. rewrite Ht.
    assert (handler s d1 = __signal_stop_handler d1) as -> by (by destruct s).
    cbn [end_event __signal_stop_handler set_end_event].
    rewrite (Hstops rest _ Hrest) by reflexivity.
    fold (reload_step w (emit (EvWaited t) (__signal_stop_handler d1))).
    rewrite reload_step_result.
    cbn [reload_event emit __signal_stop_handler set_end_event set_running].
    by rewrite Hreload1. }
  eexists. split.
  - intros post.
    rewrite run_unfold, (loop_app _ _ _ _ Hpre), loop_cons, Hi by done.
    by rewrite loop_not_running.
  - cbn [trace pin_state running emit __signal_stop_handler set_end_event
         set_running].
    by rewrite <- !app_assoc.
Qed.

Lemma stop_request_ends_run_witness :
  exists d',
    (forall post,
       run ([reading 56000] ++ stopped 50000 :: post) (at_defaults false) =
         (Ok tt, d')) /\
    pin_state d' = true /\
    running d' = false /\
    filter is_error_log (trace d') = [].
Proof.
  set (d := match passes [reading 56000] (started (at_defaults false)) with
            | Some d => d
            | None => blank
            end).
  set (d1 := (work (stopped 50000) d).2).
  assert (Hw : work (stopped 50000) d = (Ok tt, d1)) by (vm_compute; reflexivity).
  destruct (stop_request_ends_run [reading 56000] (stopped 50000)
              (at_defaults false) d d1 (JInt 1) 1 (Qmake 1 4) SIGTERM [])
    as (d' & Hrun & Htr & Hps & Hr);
    [vm_compute; reflexivity | reflexivity | reflexivity | reflexivity | exact Hw
    | reflexivity | reflexivity | reflexivity | reflexivity | reflexivity
    | reflexivity | reflexivity | constructor |].
  exists d'. split; [exact Hrun|]. split; [by rewrite Hps|]. split; [exact Hr|].
  rewrite Htr. vm_compute. reflexivity.
Defined.

(** X8. Whenever [run] returns it returns normally, never by an exception,
    and its last call to the GPIO library is [GPIO.cleanup], followed only
    by the log of the shutdown: no pin is left set up. *)
Theorem run_always_releases (ws : list world) (d d' : daemon) (r : result unit) :
  run ws d = (r, d') ->
  r <> Pending ->
  r = Ok tt /\
  (exists tr, trace d' = tr ++ [EvGpioCleanup; EvLog INFO MsgShutdown]) /\
  gpio_claimed (trace d') = [] /\
  driven (trace d') = None.
Proof.
  rewrite run_unfold. unfold gpio_claimed, driven.
  destruct (loop ws (started d)) as [[[]|e|] d1]; intros [= <- <-] Hr;
    [| |done]; cbn [trace emit]; (split; [done|]).
  - split; [exists (trace d1); by rewrite <- app_assoc|].
    rewrite <- !app_assoc, !fold_left_app. by split.
  - split; [exists (trace d1 ++ [EvLog ERROR (MsgUnexpected e)]);
            by rewrite <- (app_assoc _ [EvGpioCleanup])|].
    rewrite <- !app_assoc, !fold_left_app. by split.
Qed.

Lemma run_always_releases_witness :
  gpio_claimed (trace (run [failing_write 56000] (at_defaults false)).2) = [].
Proof.
  destruct (run_always_releases [failing_write 56000] (at_defaults false)
              (run [failing_write 56000] (at_defaults false)).2
              (run [failing_write 56000] (at_defaults false)).1
              (surjective_pairing _))
    as (_ & _ & Hcl & _); [vm_compute; discriminate|exact Hcl].
Defined.

(** ** Signals *)

Lemma handlers_frame (s : signal) (d : daemon) :
  handler s d =
    Daemon (config d) (pin_state d)
      (running d && negb (is_stop s))
      (end_event d || is_stop s)
      (reload_event d || negb (is_stop s))
      (trace d).
Proof.
  destruct d as [c ps r e rl tr], s; cbn;
    by rewrite ?andb_true_r, ?andb_false_r, ?orb_true_r, ?orb_false_r.
Qed.

(** X9. The signal handlers only set flags, and the flags coalesce: after
    any sequence of signals the daemon is stopped ([end_event] set,
    [running] cleared) exactly if it was or one of the signals is SIGTERM
    or SIGINT, a reload is pending exactly if one was or one of the signals
    is SIGHUP, and the configuration, the pin state and the trace are
    untouched, whatever the number and order of the signals. *)
Theorem handlers_coalesce (l : list signal) (d : daemon) :
  handle_all l d =
    Daemon (config d) (pin_state d)
      (running d && negb (existsb is_stop l))
      (end_event d || existsb is_stop l)
      (reload_event d || existsb (fun s => negb (is_stop s)) l)
      (trace d).
Proof.
  revert d. induction l as [|s l IH]; intros d; cbn [handle_all fold_left existsb].
  - destruct d. cbn. by rewrite andb_true_r, !orb_false_r.
  - fold (handle_all l (handler s d)). rewrite IH, handlers_frame.
    cbn [config pin_state running end_event reload_event trace].
    by rewrite negb_orb, andb_assoc, !orb_assoc.
Qed.

(** ** Edges of the control step *)

Section WorkOnReading.

(** A call of [work] on a readable sensor, with the three keys it reads. *)
Context (w : world) (d : daemon) (pin temp_max temp_min : json) (f : spec_float).
Hypothesis Hpin : config d !! "control_pin" = Some pin.
Hypothesis Hmax : config d !! "temp_max" = Some temp_max.
Hypothesis Hmin : config d !! "temp_min" = Some temp_min.
Hypothesis Hsensor : sensor w = SensorValue f.

Lemma work_neither (x y : xnum) :
  json_num temp_max = Some x ->
  json_num temp_min = Some y ->
  x_gt (SF2X (celsius f)) x = false ->
  x_lt (SF2X (celsius f)) y = false ->
  work w d = (Ok tt, idle f d).
Proof.
  intros Hx Hy Hgt Hlt. unfold work, _get_temp, py_gt, py_lt, idle. run_M.
  rewrite Hpin, Hsensor. state_step. rewrite Hmax, Hx. cbn [fmap option_fmap option_map].
  rewrite Hgt. cbn [andb]. state_step. rewrite Hmin, Hy.
  cbn [fmap option_fmap option_map]. rewrite Hlt. reflexivity.
Qed.

(** X10. The dead band is closed: on a temperature from [temp_min] to
    [temp_max], the two thresholds included, [work] reads the sensor, logs
    the temperature and does nothing else, in either state of the fan and
    whether or not [GPIO.output] would succeed. *)
Theorem work_idle_on_closed_band (lo hi t : Q) :
  json_num temp_min = Some (XFin lo) ->
  json_num temp_max = Some (XFin hi) ->
  SF2X (celsius f) = XFin t ->
  (lo <= t)%Q -> (t <= hi)%Q ->
  work w d = (Ok tt, idle f d) /\
  pin_state (idle f d) = pin_state d /\
  gpio_writes (trace (idle f d)) = gpio_writes (trace d).
Proof.
  intros Hlo Hhi Ht Hge Hle. split; [|split; [reflexivity|]].
  - apply (work_neither (XFin hi) (XFin lo) Hhi Hlo); rewrite Ht.
    + unfold x_gt. cbn [xcompare]. apply Qle_alt in Hle.
      destruct (t ?= hi)%Q eqn:E; [reflexivity | reflexivity | by destruct Hle].
    + unfold x_lt. cbn [xcompare]. apply Qge_alt in Hge.
      destruct (t ?= lo)%Q eqn:E; [reflexivity | by destruct Hge | reflexivity].
  - unfold idle, gpio_writes. cbn [trace emit]. rewrite <- app_assoc, omap_app.
    cbn. by rewrite app_nil_r.
Qed.

(** X11. A reading that is not a number (the sensor text 'nan', which
    [float] accepts) never changes the fan: each comparison with a numeric
    threshold is false, so [work] does nothing beyond the read and the
    log. *)
Theorem work_idle_on_nan (x y : xnum) :
  SF2X (celsius f) = XNan ->
  json_num temp_max = Some x ->
  json_num temp_min = Some y ->
  work w d = (Ok tt, idle f d).
Proof.
  intros Hnan Hx Hy. apply (work_neither x y Hx Hy); by rewrite Hnan.
Qed.

(** X12. Nothing rejects thresholds in the wrong order, and then the fan
    chatters: on a temperature above [temp_max] and below [temp_min],
    [work] flips the fan on every call, from either state, with one call
    of [GPIO.output]. *)
Theorem work_flips_on_inverted_band :
  py_gt (celsius f) temp_max = Some true ->
  py_lt (celsius f) temp_min = Some true ->
  output_ok w = true ->
  work w d = (Ok tt, flipped pin f d) /\
  pin_state (flipped pin f d) = negb (pin_state d) /\
  gpio_writes (trace (flipped pin f d)) =
    gpio_writes (trace d) ++ [(pin, negb (pin_state d))].
Proof.
  intros Hgt Hlt Hok. split; [|split; [reflexivity|]].
  - unfold work, _get_temp, flipped, idle. run_M.
    rewrite Hpin, Hsensor. state_step. rewrite Hmax, Hgt. state_step.
    destruct (pin_state d) eqn:Hps; cbn [andb negb]; state_step.
    + rewrite Hmin, Hlt. state_step. rewrite Hps. cbn [andb negb]. state_step.
      rewrite Hps, Hok. reflexivity.
    + rewrite Hps, Hok. reflexivity.
  - unfold flipped, idle, gpio_writes. cbn [trace emit set_pin_state].
    rewrite <- !app_assoc, omap_app. reflexivity.
Qed.

(** X13. A [temp_max] that is not a number (a string, null, a list) is
    accepted by the load and noticed only at the first comparison: [work]
    raises [TypeError] after the read, with the fan state unchanged and no
    call of [GPIO.output]. *)
Theorem work_rejects_non_numeric_threshold :
  json_num temp_max = None ->
  work w d = (Raise TypeError, idle f d).
Proof.
  intros Hx. unfold work, _get_temp, py_gt, idle. run_M.
  rewrite Hpin, Hsensor. state_step. by rewrite Hmax, Hx.
Qed.

End WorkOnReading.

Lemma work_idle_on_closed_band_witness :
  work (failing_write 55000) (at_defaults false) =
    (Ok tt, idle (float_of_Z 55000) (at_defaults false)) /\
  work (failing_write 45000) (at_defaults true) =
    (Ok tt, idle (float_of_Z 45000) (at_defaults true)).
Proof.
  split.
  - destruct (work_idle_on_closed_band (failing_write 55000) (at_defaults false)
                (JInt 21) (JInt 55) (JInt 45) (float_of_Z 55000)
                eq_refl eq_refl eq_refl eq_refl (Qmake 45 1) (Qmake 55 1)
                (Qmake 7740561859543040 140737488355328)) as [H _];
      [reflexivity | reflexivity | vm_compute; reflexivity
      | vm_compute; discriminate | vm_compute; discriminate | exact H].
  - destruct (work_idle_on_closed_band (failing_write 45000) (at_defaults true)
                (JInt 21) (JInt 55) (JInt 45) (float_of_Z 45000)
                eq_refl eq_refl eq_refl eq_refl (Qmake 45 1) (Qmake 55 1)
                (Qmake 6333186975989760 140737488355328)) as [H _];
      [reflexivity | reflexivity | vm_compute; reflexivity
      | vm_compute; discriminate | vm_compute; discriminate | exact H].
Defined.

Lemma work_idle_on_nan_witness :
  work (World (SensorValue S754_nan) true [] FileUnreadable true) (at_defaults true) =
    (Ok tt, idle S754_nan (at_defaults true)).
Proof.
  apply (work_idle_on_nan
           (World (SensorValue S754_nan) true [] FileUnreadable true)
           (at_defaults true) (JInt 21) (JInt 55) (JInt 45)
           S754_nan eq_refl eq_refl eq_refl eq_refl
           (XFin (Qmake 55 1)) (XFin (Qmake 45 1)) eq_refl eq_refl eq_refl).
Defined.

Lemma work_flips_on_inverted_band_witness :
  pin_state
    (work (reading 55000)
       (set_config (<["temp_min" := JInt 60]> (<["temp_max" := JInt 50]> default_config))
          (at_defaults false))).2 = true /\
  pin_state
    (work (reading 55000)
       (set_config (<["temp_min" := JInt 60]> (<["temp_max" := JInt 50]> default_config))
          (at_defaults true))).2 = false.
Proof.
  split.
  - destruct (work_flips_on_inverted_band (reading 55000)
                (set_config (<["temp_min" := JInt 60]>
                               (<["temp_max" := JInt 50]> default_config))
                   (at_defaults false))
                (JInt 21) (JInt 50) (JInt 60) (float_of_Z 55000))
      as (Hw & Hps & _);
      [reflexivity | reflexivity | reflexivity | reflexivity
      | vm_compute; reflexivity | vm_compute; reflexivity | reflexivity |].
    rewrite Hw. exact Hps.
  - destruct (work_flips_on_inverted_band (reading 55000)
                (set_config (<["temp_min" := JInt 60]>
                               (<["temp_max" := JInt 50]> default_config))
                   (at_defaults true))
                (JInt 21) (JInt 50) (JInt 60) (float_of_Z 55000))
      as (Hw & Hps & _);
      [reflexivity | reflexivity | reflexivity | reflexivity
      | vm_compute; reflexivity | vm_compute; reflexivity | reflexivity |].
    rewrite Hw. exact Hps.
Defined.

Lemma work_rejects_non_numeric_threshold_witness :
  work (reading 60000)
    (set_config (<["temp_max" := JString "55"]> default_config) (at_defaults false)) =
    (Raise TypeError,
     idle (float_of_Z 60000)
       (set_config (<["temp_max" := JString "55"]> default_config)
          (at_defaults false))).
Proof.
  apply (work_rejects_non_numeric_threshold (reading 60000)
           (set_config (<["temp_max" := JString "55"]> default_config)
              (at_defaults false))
           (JInt 21) (JString "55") (float_of_Z 60000));
    reflexivity.
Defined.

(** ** Construction *)

(** X14. A construction that succeeds leaves the fan disengaged and both
    flags clear, whatever the configuration says: its only calls to the
    GPIO library are [GPIO.setmode] and one [GPIO.setup] of the configured
    control pin, with the initial level LOW. *)
Theorem construction_starts_disengaged (b : boot) (d1 : daemon) :
  __init__ b blank = (Ok tt, d1) ->
  pin_state d1 = false /\ end_event d1 = false /\ reload_event d1 = false /\
  complete (config d1) /\
  exists pin,
    config d1 !! "control_pin" = Some pin /\
    filter is_gpio (trace d1) = [EvGpioSetmode; EvGpioSetup pin LOW] /\
    gpio_claimed (trace d1) = [pin].
Proof.
  rewrite init_result. destruct (boot_config b) as [| |data]; try discriminate.
  destruct (boot_logging b); try discriminate.
  destruct (boot_setup_ok b); try discriminate.
  intros [= <-]. repeat (split; [reflexivity|]).
  split; [apply merged_complete|]. eexists.
  split; [apply merged_control_pin|]. split; reflexivity.
Qed.

Lemma construction_starts_disengaged_witness :
  exists d1,
    __init__ (Boot (FileObject {[ "control_pin" := JInt 17 ]}) None true) blank =
      (Ok tt, d1) /\
    pin_state d1 = false /\
    filter is_gpio (trace d1) = [EvGpioSetmode; EvGpioSetup (JInt 17) LOW].
Proof.
  eassert (Hinit : __init__ (Boot (FileObject {[ "control_pin" := JInt 17 ]})
                              None true) blank = (Ok tt, _))
    by (rewrite init_result; reflexivity).
  destruct (construction_starts_disengaged _ _ Hinit)
    as (Hps & _ & _ & _ & pin & Hpin & Hgpio & _).
  eexists. split; [exact Hinit|]. split; [exact Hps|]. reflexivity.
Defined.

(** X15. A construction that fails makes the process exit with status 1
    without entering [run]: the start of the loop is never logged and
    [GPIO.cleanup] is never called, also when it is [GPIO.setup] that
    failed; when the failure is in the configuration file or in the logging
    set-up, no call to the GPIO library has been made at all. *)
Theorem failed_construction_exits_1 (b : boot) (ws : list world) (e : exn)
    (d1 : daemon) :
  __init__ b blank = (Raise e, d1) ->
  main b ws = (Exit 1, d1) /\
  Forall (fun ev => ev <> EvGpioCleanup /\ ev <> EvLog INFO MsgStarting) (trace d1) /\
  (boot_setup_ok b = true -> filter is_gpio (trace d1) = []).
Proof.
  intros Hinit. split.
  - unfold main. unfold mbind, M_bind. by rewrite Hinit.
  - revert Hinit. rewrite init_result.
    destruct (boot_config b) as [| |data]; [| |destruct (boot_logging b)];
      [| | |destruct (boot_setup_ok b); [discriminate|]];
      intros [= <- <-]; (split; [|by intros]);
      repeat (constructor; [split; discriminate|]); constructor.
Qed.

Lemma failed_construction_exits_1_witness :
  exists d1,
    main (Boot FileUndecodable None true) [reading 50000] = (Exit 1, d1) /\
    filter is_gpio (trace d1) = [].
Proof.
  destruct (failed_construction_exits_1 (Boot FileUndecodable None true)
              [reading 50000] ValueError (emit EvOpenConfig blank) eq_refl)
    as (Hmain & _ & Hgpio).
  eexists. split; [exact Hmain|]. by apply Hgpio.
Defined.

(** ** A stop request before the loop *)

Lemma reload_step_flags (w : world) (d d' : daemon) (r : result unit) :
  reload_step w d = (r, d') ->
  running d' = running d /\ end_event d' = end_event d /\
  waits (trace d') = waits (trace d).
Proof.
  rewrite reload_step_result. unfold waits.
  destruct (reload_event d); [|by intros [= <- <-]].
  destruct (config_source w) as [| |data]; [| |destruct (setup_ok w)];
    intros [= <- <-];
    cbn [running end_event trace emit set_config set_reload_event reloaded];
    rewrite <- ?app_assoc, ?omap_app; cbn; by rewrite ?app_nil_r.
Qed.

Lemma iteration_after_stop (w : world) (d d' : daemon) :
  arrivals w = [] ->
  end_event d = true ->
  iteration w d = (Ok tt, d') ->
  running d' = running d /\ end_event d' = true /\
  waits (trace d') = waits (trace d) ++ [0%Q].
Proof.
  intros Harr Hend Hi.
  destruct (iteration_ok_inv w d d' Hi) as (d1 & d2 & timeout & Hw & _ & Hwait & Hr).
  destruct (work_flags _ _ _ _ Hw) as (Hr1 & He1 & _).
  assert (Hw1 : waits (trace d1) = waits (trace d)).
  { destruct (work_ok_inv w d d1 Hw) as (pin & f & _ & _ & [-> | ->]);
      unfold waits; cbn [trace emit set_pin_state];
      rewrite <- ?app_assoc, omap_app; cbn; by rewrite app_nil_r. }
  unfold Event_wait in Hwait. rewrite Harr, He1, Hend in Hwait.
  cbn [late] in Hwait. injection Hwait as <-.
  destruct (reload_step_flags _ _ _ _ Hr) as (-> & -> & ->).
  cbn [running end_event trace emit]. unfold waits at 1. rewrite omap_app.
  fold (waits (trace d1)). rewrite Hw1. by rewrite Hr1, He1, Hend.
Qed.

(** X16. A stop request handled before [run] starts is overridden: [run]
    sets [running] again, and since [end_event] is never cleared, the wait
    of every pass returns at once, whatever the configured sleep: while no
    further signal arrives, the loop keeps going without pause. *)
Theorem early_stop_is_overridden (ws : list world) (d0 d : daemon) :
  Forall (fun w => arrivals w = []) ws ->
  passes ws (started (__signal_stop_handler d0)) = Some d ->
  running (__signal_stop_handler d0) = false /\
  running d = true /\ end_event d = true /\
  waits (trace d) = waits (trace d0) ++ replicate (length ws) 0%Q.
Proof.
  intros Hquiet Hp. split; [reflexivity|].
  assert (Hgen : forall ws d1 d,
            Forall (fun w => arrivals w = []) ws ->
            passes ws d1 = Some d -> end_event d1 = true ->
            running d = running d1 /\ end_event d = true /\
            waits (trace d) = waits (trace d1) ++ replicate (length ws) 0%Q).
  { clear. induction ws as [|w ws IH]; intros d1 d Hq Hp Hend; cbn [passes] in Hp.
    - injection Hp as <-. cbn. by rewrite app_nil_r.
    - destruct (running d1) eqn:Hrun; [|discriminate].
      destruct (iteration w d1) as [[[]| |] d2] eqn:Hi; try discriminate.
      apply Forall_cons in Hq as [Hw Hq].
      destruct (iteration_after_stop w d1 d2 Hw Hend Hi) as (Hr2 & He2 & Hw2).
      destruct (IH d2 d Hq Hp He2) as (-> & -> & ->).
      rewrite Hr2, Hw2, <- app_assoc. by rewrite Hrun. }
  destruct (Hgen ws _ d Hquiet Hp eq_refl) as (-> & -> & ->).
  repeat (split; [reflexivity|]). f_equal.
  unfold waits, started. cbn [trace emit set_running __signal_stop_handler
                              set_end_event].
  rewrite omap_app. cbn. by rewrite app_nil_r.
Qed.

Lemma early_stop_is_overridden_witness :
  exists d,
    passes [reading 50000; reading 50000]
      (started (__signal_stop_handler (at_defaults false))) = Some d /\
    running d = true /\
    waits (trace d) = [0%Q; 0%Q].
Proof.
  eassert (Hp : passes [reading 50000; reading 50000]
                  (started (__signal_stop_handler (at_defaults false))) = Some _)
    by (vm_compute; reflexivity).
  assert (Hq : Forall (fun w => arrivals w = []) [reading 50000; reading 50000])
    by (repeat constructor).
  destruct (early_stop_is_overridden _ _ _ Hq Hp) as (_ & Hr & _ & Hw).
  eexists. split; [exact Hp|]. split; [exact Hr|exact Hw].
Defined.

(** ** Writes and pins over a run *)

Lemma default_last_cons (b x : bool) (l : list bool) :
  default b (last (x :: l)) = default x (last l).
Proof.
  destruct l as [|y l]; [reflexivity|].
  change (last (x :: y :: l)) with (last (y :: l)).
  destruct (last (y :: l)) eqn:E; [reflexivity|]. by apply last_None in E.
Qed.

Lemma levels_app (tr evs : list event) : levels (tr ++ evs) = levels tr ++ levels evs.
Proof. apply omap_app. Qed.

Lemma reload_step_levels (w : world) (d d' : daemon) :
  reload_step w d = (Ok tt, d') ->
  levels (trace d') = levels (trace d) /\ pin_state d' = pin_state d.
Proof.
  rewrite reload_step_result.
  destruct (reload_event d); [|by intros [= <-]].
  destruct (config_source w) as [| |data]; try discriminate.
  destruct (setup_ok w); try discriminate. intros [= <-].
  cbn [trace pin_state emit set_config set_reload_event reloaded].
  rewrite <- !app_assoc, levels_app. cbn. by rewrite app_nil_r.
Qed.

Lemma iteration_levels (w : world) (d d' : daemon) :
  iteration w d = (Ok tt, d') ->
  (levels (trace d') = levels (trace d) /\ pin_state d' = pin_state d) \/
  (levels (trace d') = levels (trace d) ++ [negb (pin_state d)] /\
   pin_state d' = negb (pin_state d)).
Proof.
  intros Hi.
  destruct (iteration_ok_inv w d d' Hi) as (d1 & d2 & timeout & Hw & _ & Hwait & Hr).
  destruct (reload_step_levels _ _ _ Hr) as [-> ->].
  destruct (Event_wait_frame _ _ _ _ _ Hwait) as (_ & -> & _ & Htr).
  assert (Hl2 : levels (trace d2) = levels (trace d1)).
  { destruct Htr as [-> | [t ->]]; [done|]. rewrite levels_app. cbn.
    by rewrite app_nil_r. }
  rewrite Hl2.
  destruct (work_ok_inv w d d1 Hw) as (pin & f & _ & _ & [-> | ->]);
    [left|right]; cbn [trace pin_state emit set_pin_state];
    rewrite <- ?app_assoc, levels_app; cbn; by rewrite ?app_nil_r.
Qed.

(** X17. Over any number of passes the calls of [GPIO.output] alternate:
    the first writes the opposite of the state the passes start from, each
    later one the opposite of the write before it, and the stored state
    after the passes is the last level written. The daemon never writes the
    level the pin already has. *)
Theorem writes_alternate (ws : list world) (d d' : daemon) :
  passes ws d = Some d' ->
  exists l,
    levels (trace d') = levels (trace d) ++ l /\
    alternates (pin_state d) l /\
    pin_state d' = default (pin_state d) (last l) /\
    (length l <= length ws)%nat.
Proof.
  revert d. induction ws as [|w ws IH]; intros d Hp; cbn [passes] in Hp.
  - injection Hp as <-. exists []. by rewrite app_nil_r.
  - destruct (running d); [|discriminate].
    destruct (iteration w d) as [[[]| |] d1] eqn:Hi; try discriminate.
    destruct (IH d1 Hp) as (l & Hl & Halt & Hps & Hlen).
    destruct (iteration_levels w d d1 Hi) as [[Hl1 Hps1] | [Hl1 Hps1]].
    + exists l. rewrite Hl, Hl1, <- Hps1. cbn [length]. repeat split; try done. lia.
    + exists (negb (pin_state d) :: l). rewrite Hl, Hl1, <- app_assoc.
      split; [done|]. rewrite <- Hps1. split; [by split|].
      split; [|cbn [length]; lia]. by rewrite Hps, default_last_cons.
Qed.

Lemma writes_alternate_witness :
  exists d',
    passes [reading 56000; reading 60000; reading 44000; reading 40000; reading 56000]
      (at_defaults false) = Some d' /\
    levels (trace d') = [true; false; true] /\
    pin_state d' = true.
Proof.
  eassert (Hp : passes [reading 56000; reading 60000; reading 44000;
                        reading 40000; reading 56000]
                  (at_defaults false) = Some _)
    by (vm_compute; reflexivity).
  destruct (writes_alternate _ _ _ Hp) as (l & Hl & _ & _ & _).
  eexists. split; [exact Hp|]. split; reflexivity.
Defined.

Lemma gpio_claimed_app (tr evs : list event) :
  gpio_claimed (tr ++ evs) = fold_left gpio_step evs (gpio_claimed tr).
Proof. apply fold_left_app. Qed.

Lemma iteration_one_claimed (w : world) (d d' : daemon) :
  one_claimed d -> iteration w d = (Ok tt, d') -> one_claimed d'.
Proof.
  intros (pin & Hpin & Hcl) Hi.
  destruct (iteration_ok_inv w d d' Hi) as (d1 & d2 & timeout & Hw & _ & Hwait & Hr).
  assert (H1 : config d1 = config d /\ gpio_claimed (trace d1) = [pin]).
  { split; [by apply (work_config _ _ _ _ Hw)|].
    destruct (work_ok_inv w d d1 Hw) as (pin' & f & _ & _ & [-> | ->]);
      cbn [trace emit set_pin_state]; rewrite <- ?app_assoc, gpio_claimed_app, Hcl;
      reflexivity. }
  destruct H1 as [Hc1 Hcl1].
  assert (H2 : config d2 = config d /\ gpio_claimed (trace d2) = [pin]).
  { destruct (Event_wait_frame _ _ _ _ _ Hwait) as (-> & _ & _ & Htr).
    split; [exact Hc1|]. destruct Htr as [-> | [t ->]]; [exact Hcl1|].
    by rewrite gpio_claimed_app, Hcl1. }
  destruct H2 as [Hc2 Hcl2]. revert Hr. rewrite reload_step_result.
  destruct (reload_event d2).
  - destruct (config_source w) as [| |data]; try discriminate.
    destruct (setup_ok w); try discriminate. intros [= <-].
    eexists. cbn [config trace emit set_config set_reload_event reloaded].
    split; [apply merged_control_pin|].
    rewrite <- !app_assoc, gpio_claimed_app. reflexivity.
  - intros [= <-]. exists pin. by rewrite Hc2.
Qed.

(** X18. From the construction on, after every pass that returns, exactly
    one pin is set up and it is the configured [control_pin]: a reload
    releases the old pin before it sets up the new one, and no other call
    claims a pin. *)
Theorem one_pin_claimed (b : boot) (ws : list world) (d1 d : daemon) :
  __init__ b blank = (Ok tt, d1) ->
  passes ws (started d1) = Some d ->
  exists pin,
    config d !! "control_pin" = Some pin /\ gpio_claimed (trace d) = [pin].
Proof.
  rewrite init_result. destruct (boot_config b) as [| |data]; try discriminate.
  destruct (boot_logging b); try discriminate.
  destruct (boot_setup_ok b); try discriminate.
  intros [= <-].
  assert (Hstart : one_claimed (started (emit (EvLog INFO MsgInited) (built data))))
    by (eexists; split; [apply merged_control_pin|reflexivity]).
  revert Hstart. generalize (started (emit (EvLog INFO MsgInited) (built data))).
  induction ws as [|w ws IH]; intros d2 Hone Hp; cbn [passes] in Hp.
  - by injection Hp as <-.
  - destruct (running d2); [|discriminate].
    destruct (iteration w d2) as [[[]| |] d3] eqn:Hi; try discriminate.
    eauto using iteration_one_claimed.
Qed.

Lemma one_pin_claimed_witness :
  exists d pin,
    passes [hangup 56000; reading 50000]
      (started (emit (EvLog INFO MsgInited) (built ∅))) = Some d /\
    config d !! "control_pin" = Some pin /\
    gpio_claimed (trace d) = [pin].
Proof.
  eassert (Hp : passes [hangup 56000; reading 50000]
                  (started (emit (EvLog INFO MsgInited) (built ∅))) = Some _)
    by (vm_compute; reflexivity).
  assert (Hinit : __init__ plain_boot blank =
                    (Ok tt, emit (EvLog INFO MsgInited) (built ∅)))
    by (vm_compute; reflexivity).
  destruct (one_pin_claimed plain_boot _ _ _ Hinit Hp) as (pin & Hpin & Hcl).
  eexists _, pin. split; [exact Hp|]. split; [exact Hpin|exact Hcl].
Defined.

(** ** A sleep that the wait rejects *)



